(** * AI PDF chatbot: a shallow embedding of [backend/app/main.py]

    The FastAPI handlers and their helpers are embedded as computations in a
    state-and-exception monad over an explicit [World]: the module-level
    dictionary [vector_stores], the two SQLite tables, the temporary files,
    the queue of background tasks and what has been printed.  The third-party
    collaborators (PDF loader, text splitter, FAISS, the retrieval chain) are
    section variables: every theorem holds for any behaviour they may have,
    including failure.  Exceptions are the instances of Python's [Exception].

    The chunker of the specification (section 4.1) has no counterpart in the
    file, which delegates to a library splitter; it is modelled separately in
    [Module Chunker]. *)

From Stdlib Require Import Ascii Sorted.
From stdpp Require Import base gmap strings list pretty.

Open Scope string_scope.
Open Scope list_scope.
Open Scope Z_scope.

(** ** Python values, exceptions and results *)

(** A value stored in a [Document.metadata] dictionary. *)
Inductive PyVal :=
| PInt (n : Z)
| PStr (s : string).

(** [langchain.schema.Document]; [metadata = None] stands for an object that
    has no [metadata] attribute ([hasattr(doc, 'metadata')] is false). *)
Record Document := mkDocument {
  page_content : string;
  metadata : option (gmap string PyVal)
}.

(** An instance of [Exception]: its class name and [str(e)]. *)
Record Exn := mkExn {
  exn_class : string;
  str : string
}.

(** [fastapi.HTTPException(status_code=..., detail=...)]. *)
Record HTTPException := mkHTTPException {
  status_code : Z;
  detail : string
}.

Inductive Result (A : Type) :=
| Ok (a : A)
| Raise (e : Exn).
Arguments Ok {A} a.
Arguments Raise {A} e.

(** ** Request and response models *)

Record QuestionRequest := mkQuestionRequest {
  question : string;
  document_id : option string
}.

Record UploadResponse := mkUploadResponse {
  message : string;
  upload_document_id : string
}.

Record ChatResponse := mkChatResponse {
  answer : string;
  sources : list string;
  chat_document_id : string
}.

(** The part of [UploadFile] that [upload_pdf] reads. *)
Record UploadFile := mkUploadFile {
  content_type : option string;
  content : string
}.

(** What the retrieval chain returns: [result["result"]] and
    [result["source_documents"]]. *)
Record QAResult := mkQAResult {
  qa_result : string;
  source_documents : list Document
}.

(** ** The SQLite database *)

Inductive SqlVal :=
| SText (s : string)
| STime (t : Z).

(** A row of [documents]: id, filename, uploaded_at. *)
Record DocumentRow := mkDocumentRow {
  doc_id : string;
  doc_filename : string;
  doc_uploaded_at : Z
}.

(** A row of [chats]: id, document_id, question, answer, created_at. *)
Record ChatRow := mkChatRow {
  chat_id : string;
  chat_doc : string;
  chat_question : string;
  chat_answer : string;
  chat_created_at : Z
}.

(** One call of [cursor.execute(sql, params)]. *)
Record SqlCall := mkSqlCall {
  sql_text : string;
  sql_params : list SqlVal
}.

(** The rows a connection has written and not yet committed. *)
Inductive Staged :=
| StagedDocument (r : DocumentRow)
| StagedChat (r : ChatRow).

Definition Conn := list Staged.

Definition INSERT_DOCUMENT : string := "INSERT INTO documents VALUES (?, ?, ?)".
Definition INSERT_CHAT : string := "INSERT INTO chats VALUES (?, ?, ?, ?, ?)".
Definition SELECT_DOCUMENTS : string :=
  "SELECT id, filename, uploaded_at FROM documents ORDER BY uploaded_at DESC".
Definition SELECT_CHATS : string :=
  "SELECT question, answer, created_at FROM chats WHERE document_id = ? ORDER BY created_at".

(** ** Small string helpers *)

Fixpoint has_slash (s : string) : bool :=
  match s with
  | EmptyString => false
  | String c r => if Ascii.eqb c "/"%char then true else has_slash r
  end.

(** [os.path.basename]: what follows the last slash. *)
Fixpoint basename (s : string) : string :=
  match s with
  | EmptyString => EmptyString
  | String c r =>
      if has_slash r then basename r
      else if Ascii.eqb c "/"%char then r else s
  end.

(** Insertion into a list sorted by a timestamp, after the entries that are
    not later: the order [ORDER BY created_at] gives, insertion order kept
    among equal timestamps. *)
Fixpoint insert_by {A} (key : A -> Z) (x : A) (l : list A) : list A :=
  match l with
  | [] => [x]
  | y :: l' => if key x <? key y then x :: l else y :: insert_by key x l'
  end.

Definition order_by {A} (key : A -> Z) (l : list A) : list A :=
  fold_left (fun acc x => insert_by key x acc) l [].

(** ** The chunker of the specification *)

Module Chunker.

Local Open Scope nat_scope.

(** Modelled from the spec: a Passage of section 3, a substring of the
    document's text with its character offset range.  [main.py] has no
    chunker of its own: it hands the pages to a library splitter, which is
    not part of the repository.  Page attribution plays no part in the
    statements below and is left out. *)
Record Passage := mkPassage {
  passage_text : list ascii;
  start_offset : nat;
  end_offset : nat
}.

Definition default_chunk_size : nat := 1000.
Definition default_overlap : nat := 200.

(** Modelled from the spec: the passages from offset [start] on.  Each takes
    at most [chunk_size] characters; the next one starts [overlap]
    characters before the end of a full one; the one that reaches the end of
    the text is the last. *)
Fixpoint chunks (fuel chunk_size overlap : nat) (text : list ascii) (start : nat)
  : list Passage :=
  match fuel with
  | O => []
  | S fuel' =>
      let p := mkPassage (take chunk_size (drop start text)) start
                         (min (start + chunk_size) (length text)) in
      if length text <=? start + chunk_size then [p]
      else p :: chunks fuel' chunk_size overlap text (start + (chunk_size - overlap))
  end.

(** Modelled from the spec: the Chunker's [split] of section 4.1, "chunks of
    a configured maximum length with a configured overlap between
    consecutive chunks", in text order. *)
Definition split (chunk_size overlap : nat) (text : list ascii) : list Passage :=
  chunks (S (length text)) chunk_size overlap text 0.

End Chunker.

Section Backend.

(** ** Collaborators outside the file *)

(** The FAISS store built for one document. *)
Context {VectorStore : Type}.

(** [PyPDFLoader(file_path).load()], given the content of the file at
    [file_path] ([None] when there is no such file): one [Document] per page. *)
Variable PyPDFLoader_load : string -> option string -> Result (list Document).

(** [RecursiveCharacterTextSplitter(chunk_size, chunk_overlap).split_documents]. *)
Variable split_documents : Z -> Z -> list Document -> Result (list Document).

(** [FAISS.from_documents(texts, embeddings)]. *)
Variable FAISS_from_documents : list Document -> Result VectorStore.

(** [RetrievalQA.from_chain_type(llm, "stuff", retriever(k), True)] applied
    to [{"query": question}]: retrieval and generation. *)
Variable RetrievalQA_call : VectorStore -> Z -> string -> Result QAResult.

(** The n-th value [uuid.uuid4()] yields, and the n-th temporary file name. *)
Variable uuid4_value : nat -> string.
Variable tmp_name : nat -> string -> string.

(** ** The world the handlers run in *)

Record World := mkWorld {
  vector_stores : gmap string VectorStore;
  db_documents : list DocumentRow;
  db_chats : list ChatRow;
  db_log : list SqlCall;
  files : gmap string string;
  tasks : list (string * string);
  stdout : list string;
  faults : list (option Exn);
  counter : nat;
  clock : Z
}.

Definition set_vector_stores f (w : World) : World :=
  mkWorld (f (vector_stores w)) (db_documents w) (db_chats w) (db_log w)
    (files w) (tasks w) (stdout w) (faults w) (counter w) (clock w).
Definition set_db_documents f (w : World) : World :=
  mkWorld (vector_stores w) (f (db_documents w)) (db_chats w) (db_log w)
    (files w) (tasks w) (stdout w) (faults w) (counter w) (clock w).
Definition set_db_chats f (w : World) : World :=
  mkWorld (vector_stores w) (db_documents w) (f (db_chats w)) (db_log w)
    (files w) (tasks w) (stdout w) (faults w) (counter w) (clock w).
Definition set_db_log f (w : World) : World :=
  mkWorld (vector_stores w) (db_documents w) (db_chats w) (f (db_log w))
    (files w) (tasks w) (stdout w) (faults w) (counter w) (clock w).
Definition set_files f (w : World) : World :=
  mkWorld (vector_stores w) (db_documents w) (db_chats w) (db_log w)
    (f (files w)) (tasks w) (stdout w) (faults w) (counter w) (clock w).
Definition set_tasks f (w : World) : World :=
  mkWorld (vector_stores w) (db_documents w) (db_chats w) (db_log w)
    (files w) (f (tasks w)) (stdout w) (faults w) (counter w) (clock w).
Definition set_stdout f (w : World) : World :=
  mkWorld (vector_stores w) (db_documents w) (db_chats w) (db_log w)
    (files w) (tasks w) (f (stdout w)) (faults w) (counter w) (clock w).
Definition set_faults f (w : World) : World :=
  mkWorld (vector_stores w) (db_documents w) (db_chats w) (db_log w)
    (files w) (tasks w) (stdout w) (f (faults w)) (counter w) (clock w).
Definition set_counter f (w : World) : World :=
  mkWorld (vector_stores w) (db_documents w) (db_chats w) (db_log w)
    (files w) (tasks w) (stdout w) (faults w) (f (counter w)) (clock w).
Definition set_clock f (w : World) : World :=
  mkWorld (vector_stores w) (db_documents w) (db_chats w) (db_log w)
    (files w) (tasks w) (stdout w) (faults w) (counter w) (f (clock w)).

(** ** The monad: a world threaded through, exceptions propagated *)

Definition M (A : Type) : Type := World -> Result A * World.

Definition ret {A} (a : A) : M A := fun w => (Ok a, w).

Definition bind {A B} (c : M A) (k : A -> M B) : M B :=
  fun w =>
    match c w with
    | (Ok a, w') => k a w'
    | (Raise e, w') => (Raise e, w')
    end.

Definition raise {A} (e : Exn) : M A := fun w => (Raise e, w).

(** [try: body / except Exception as e: handler(e)]. *)
Definition try_except {A} (body : M A) (handler : Exn -> M A) : M A :=
  fun w =>
    match body w with
    | (Ok a, w') => (Ok a, w')
    | (Raise e, w') => handler e w'
    end.

Definition lift {A} (r : Result A) : M A := fun w => (r, w).

Definition get {A} (f : World -> A) : M A := fun w => (Ok (f w), w).

Definition modify (f : World -> World) : M unit := fun w => (Ok tt, f w).

Notation "x <- c ;; k" := (bind c (fun x => k))
  (at level 100, c at next level, right associativity).
Notation "c ;;; k" := (bind c (fun _ => k))
  (at level 100, right associativity).

(** ** Primitive effects *)

(** [print(s)]. *)
Definition print (s : string) : M unit :=
  modify (set_stdout (fun out => out ++ [s])).

(** [datetime.now()]: the clock is read and moves on. *)
Definition datetime_now : M Z :=
  fun w => (Ok (clock w), set_clock Z.succ w).

(** [str(uuid.uuid4())]. *)
Definition uuid4 : M string :=
  fun w => (Ok (uuid4_value (counter w)), set_counter S w).

(** A call into the operating system or the database that the environment
    may make fail: the head of [faults] says whether this one does. *)
Definition fault_point : M unit :=
  fun w =>
    match faults w with
    | [] => (Ok tt, w)
    | None :: fs => (Ok tt, set_faults (fun _ => fs) w)
    | Some e :: fs => (Raise e, set_faults (fun _ => fs) w)
    end.

(** [tempfile.NamedTemporaryFile(delete=False, suffix=...)]: a fresh, empty
    file that stays on disk; its name. *)
Definition NamedTemporaryFile (suffix : string) : M string :=
  fault_point ;;;
  n <- get counter ;;
  modify (set_counter S) ;;;
  modify (set_files (fun fs => <[tmp_name n suffix := ""]> fs)) ;;;
  ret (tmp_name n suffix).

(** [tmp_file.write(content)]. *)
Definition write_file (path data : string) : M unit :=
  fault_point ;;;
  modify (set_files (fun fs => <[path := data]> fs)).

(** ** SQLite *)

(** [sqlite3.connect('chatbot.db')]. *)
Definition sqlite3_connect : M Conn :=
  fault_point ;;; ret [].

Definition staged_document_ids (conn : Conn) : list string :=
  omap (fun s => match s with StagedDocument r => Some (doc_id r) | _ => None end) conn.
Definition staged_chat_ids (conn : Conn) : list string :=
  omap (fun s => match s with StagedChat r => Some (chat_id r) | _ => None end) conn.
Definition staged_chats (conn : Conn) : list ChatRow :=
  omap (fun s => match s with StagedChat r => Some r | _ => None end) conn.
Definition staged_documents (conn : Conn) : list DocumentRow :=
  omap (fun s => match s with StagedDocument r => Some r | _ => None end) conn.

Definition IntegrityError (table : string) : Exn :=
  mkExn "IntegrityError" ("UNIQUE constraint failed: " +:+ table +:+ ".id").
Definition ProgrammingError : Exn :=
  mkExn "ProgrammingError" "Incorrect number of bindings supplied.".
Definition OperationalError : Exn :=
  mkExn "OperationalError" "unrecognised statement".

(** [cursor.execute(sql, params)] on the four statements of the file; the
    result is the connection with what it has staged, and the rows
    [fetchall()] gives.  The statement text and the bound parameters are kept
    apart: the text selects the statement, the parameters are only compared
    with or stored in columns. *)
Definition execute (conn : Conn) (sql : string) (params : list SqlVal)
  : M (Conn * list (list SqlVal)) :=
  modify (set_db_log (fun log => log ++ [mkSqlCall sql params])) ;;;
  fault_point ;;;
  if bool_decide (sql = INSERT_DOCUMENT) then
    match params with
    | [SText i; SText f; STime t] =>
        ids <- get (fun w => map doc_id (db_documents w)) ;;
        if bool_decide (i ∈ ids ++ staged_document_ids conn)
        then raise (IntegrityError "documents")
        else ret (conn ++ [StagedDocument (mkDocumentRow i f t)], [])
    | _ => raise ProgrammingError
    end
  else if bool_decide (sql = INSERT_CHAT) then
    match params with
    | [SText i; SText d; SText q; SText a; STime t] =>
        ids <- get (fun w => map chat_id (db_chats w)) ;;
        if bool_decide (i ∈ ids ++ staged_chat_ids conn)
        then raise (IntegrityError "chats")
        else ret (conn ++ [StagedChat (mkChatRow i d q a t)], [])
    | _ => raise ProgrammingError
    end
  else if bool_decide (sql = SELECT_DOCUMENTS) then
    match params with
    | [] =>
        rows <- get (fun w => db_documents w ++ staged_documents conn) ;;
        ret (conn, map (fun r => [SText (doc_id r); SText (doc_filename r);
                                  STime (doc_uploaded_at r)])
                       (order_by (fun r => - doc_uploaded_at r) rows))
    | _ => raise ProgrammingError
    end
  else if bool_decide (sql = SELECT_CHATS) then
    match params with
    | [SText d] =>
        rows <- get (fun w => db_chats w ++ staged_chats conn) ;;
        ret (conn, map (fun r => [SText (chat_question r); SText (chat_answer r);
                                  STime (chat_created_at r)])
                       (order_by chat_created_at
                          (filter (fun r => chat_doc r = d) rows)))
    | [_] => ret (conn, [])
    | _ => raise ProgrammingError
    end
  else raise OperationalError.

(** [conn.commit()]: what the connection staged reaches the tables. *)
Definition commit (conn : Conn) : M unit :=
  fault_point ;;;
  modify (set_db_documents (fun rows => rows ++ staged_documents conn)) ;;;
  modify (set_db_chats (fun rows => rows ++ staged_chats conn)).

(** [conn.close()]. *)
Definition close (conn : Conn) : M unit := ret tt.

(** ** [process_document] *)

(** Lines 80-91: load the PDF, split it, build the vector store. *)
Definition build_index (file_path : string) : M VectorStore :=
  data <- get (fun w => files w !! file_path) ;;
  documents <- lift (PyPDFLoader_load file_path data) ;;
  texts <- lift (split_documents 1000 200 documents) ;;
  lift (FAISS_from_documents texts).

Definition process_document (file_path document_id : string) : M bool :=
  try_except
    (vector_store <- build_index file_path ;;
     modify (set_vector_stores (fun vs => <[document_id := vector_store]> vs)) ;;;
     conn <- sqlite3_connect ;;
     now <- datetime_now ;;
     r <- execute conn INSERT_DOCUMENT
            [SText document_id; SText (basename file_path); STime now] ;;
     commit (fst r) ;;;
     close (fst r) ;;;
     ret true)
    (fun e =>
       print ("Error processing document: " +:+ str e) ;;;
       ret false).

(** ** [save_chat] *)

Definition save_chat (document_id question answer : string) : M unit :=
  try_except
    (conn <- sqlite3_connect ;;
     chat_id <- uuid4 ;;
     now <- datetime_now ;;
     r <- execute conn INSERT_CHAT
            [SText chat_id; SText document_id; SText question; SText answer;
             STime now] ;;
     commit (fst r) ;;;
     close (fst r))
    (fun e => print ("Error saving chat: " +:+ str e)).

(** ** Handlers *)

(** A handler either responds or raises an [HTTPException]; an exception of
    another kind that escapes it is the monad's [Raise]. *)
Definition Handler (A : Type) : Type := M (HTTPException + A).

Definition raise_http {A} (status : Z) (msg : string) : Handler A :=
  ret (inl (mkHTTPException status msg)).

Definition respond {A} (a : A) : Handler A := ret (inr a).

(** [background_tasks.add_task(process_document, file_path, document_id)]. *)
Definition add_task (file_path document_id : string) : M unit :=
  modify (set_tasks (fun q => q ++ [(file_path, document_id)])).

(** [POST /upload]; [background_tasks] says whether a [BackgroundTasks]
    object was passed (it is then truthy) or [None]. *)
Definition upload_pdf (file : UploadFile) (background_tasks : bool)
  : Handler UploadResponse :=
  if negb (bool_decide (content_type file = Some "application/pdf")) then
    raise_http 400 "Only PDF files are allowed"
  else
    tmp_file_path <- NamedTemporaryFile ".pdf" ;;
    write_file tmp_file_path (content file) ;;;
    document_id <- uuid4 ;;
    (if background_tasks
     then add_task tmp_file_path document_id
     else (process_document tmp_file_path document_id ;;; ret tt)) ;;;
    respond (mkUploadResponse
               "PDF is being processed. You can start asking questions shortly."
               document_id).

(** The queued tasks, run in order after the response was sent. *)
Fixpoint run_tasks (q : list (string * string)) : M unit :=
  match q with
  | [] => ret tt
  | (file_path, document_id) :: q' =>
      process_document file_path document_id ;;; run_tasks q'
  end.

Definition run_background_tasks : M unit :=
  q <- get tasks ;;
  modify (set_tasks (fun _ => [])) ;;;
  run_tasks q.

Definition dquote : string := String (ascii_of_nat 34) EmptyString.

(** What [doc.metadata['page'] + 1] raises when the page is a string. *)
Definition TypeError : Exn :=
  mkExn "TypeError"
    ("can only concatenate str (not " +:+ dquote +:+ "int" +:+ dquote +:+ ") to str").

(** Lines 166-169: the loop that collects the sources. *)
Fixpoint extract_sources (docs : list Document) (sources : list string)
  : Result (list string) :=
  match docs with
  | [] => Ok sources
  | doc :: rest =>
      match metadata doc with
      | None => extract_sources rest sources
      | Some md =>
          match md !! "page" with
          | None => extract_sources rest sources
          | Some (PInt page) =>
              extract_sources rest (sources ++ ["Page " +:+ pretty (page + 1)])
          | Some (PStr _) => Raise TypeError
          end
      end
  end.

Definition NOT_FOUND_OR_PROCESSING : HTTPException :=
  mkHTTPException 400 "Document not found or still processing".

(** [document_id in vector_stores]; [None] is no key of the dictionary. *)
Definition contains (stores : gmap string VectorStore) (document_id : option string)
  : bool :=
  match document_id with
  | Some id => bool_decide (is_Some (stores !! id))
  | None => false
  end.

(** [vector_stores[document_id]], with the key as a string. *)
Definition getitem (document_id : option string) : M (string * VectorStore) :=
  stores <- get vector_stores ;;
  match document_id with
  | Some id =>
      match stores !! id with
      | Some vector_store => ret (id, vector_store)
      | None => raise (mkExn "KeyError" ("'" +:+ id +:+ "'"))
      end
  | None => raise (mkExn "KeyError" "None")
  end.

(** [POST /ask]. *)
Definition ask_question (request : QuestionRequest) : Handler ChatResponse :=
  stores <- get vector_stores ;;
  if negb (contains stores (document_id request)) then
    ret (inl NOT_FOUND_OR_PROCESSING)
  else
    try_except
      (entry <- getitem (document_id request) ;;
       result <- lift (RetrievalQA_call (snd entry) 3 (question request)) ;;
       sources <- lift (extract_sources (source_documents result) []) ;;
       save_chat (fst entry) (question request) (qa_result result) ;;;
       respond (mkChatResponse (qa_result result) sources (fst entry)))
      (fun e => raise_http 500 ("Error processing question: " +:+ str e)).

(** [row[i]]. *)
Definition row_get (row : list SqlVal) (i : nat) : Result SqlVal :=
  match row !! i with
  | Some v => Ok v
  | None => Raise (mkExn "IndexError" "tuple index out of range")
  end.

(** The loops over [c.fetchall()]: three columns of every row. *)
Fixpoint rows_to_entries (rows : list (list SqlVal))
  : Result (list (SqlVal * SqlVal * SqlVal)) :=
  match rows with
  | [] => Ok []
  | row :: rest =>
      match row_get row 0, row_get row 1, row_get row 2 with
      | Ok a, Ok b, Ok c =>
          match rows_to_entries rest with
          | Ok l => Ok ((a, b, c) :: l)
          | Raise e => Raise e
          end
      | Raise e, _, _ | _, Raise e, _ | _, _, Raise e => Raise e
      end
  end.

(** [GET /documents]. *)
Definition get_documents : Handler (list (SqlVal * SqlVal * SqlVal)) :=
  try_except
    (conn <- sqlite3_connect ;;
     r <- execute conn SELECT_DOCUMENTS [] ;;
     documents <- lift (rows_to_entries (snd r)) ;;
     close (fst r) ;;;
     respond documents)
    (fun e => raise_http 500 ("Error retrieving documents: " +:+ str e)).

(** [GET /chats/{document_id}]. *)
Definition get_chats (document_id : string)
  : Handler (list (SqlVal * SqlVal * SqlVal)) :=
  try_except
    (conn <- sqlite3_connect ;;
     r <- execute conn SELECT_CHATS [SText document_id] ;;
     chats <- lift (rows_to_entries (snd r)) ;;
     close (fst r) ;;;
     respond chats)
    (fun e => raise_http 500 ("Error retrieving chats: " +:+ str e)).

(** ** Auxiliary notions used in the statements *)

(** [doc.metadata['page']] when [doc] has page metadata. *)
Definition page_of (doc : Document) : option PyVal :=
  metadata doc ≫= fun md => md !! "page".

(** The label the loop appends for a document, if any. *)
Definition page_label (doc : Document) : option string :=
  match page_of doc with
  | Some (PInt page) => Some ("Page " +:+ pretty (page + 1))
  | _ => None
  end.

Definition bad_page (doc : Document) : bool :=
  match page_of doc with
  | Some (PStr _) => true
  | _ => false
  end.

(** The SQL calls a computation adds to the log. *)
Definition issued {A} (c : M A) (w : World) : list SqlCall :=
  drop (length (db_log w)) (db_log (snd (c w))).

(** The failure [ask_question] reports for an exception [e]. *)
Definition processing_error (e : Exn) : HTTPException :=
  mkHTTPException 500 ("Error processing question: " +:+ str e).

(** ** General facts *)

Ltac unfold_monad :=
  unfold bind, ret, raise, lift, get, modify, try_except, respond, raise_http in *.

Lemma fault_point_cases w :
  (fault_point w = (Ok tt, w) ∧ faults w = []) ∨
  (∃ fs, fault_point w = (Ok tt, set_faults (fun _ => fs) w) ∧ faults w = None :: fs) ∨
  (∃ e fs, fault_point w = (Raise e, set_faults (fun _ => fs) w) ∧ faults w = Some e :: fs).
Proof.
  unfold fault_point. destruct (faults w) as [|[e|] fs]; eauto 6.
Qed.

Lemma save_chat_returns doc q a w :
  ∃ w', save_chat doc q a w = (Ok tt, w').
Proof.
  unfold save_chat, try_except.
  match goal with |- context [match ?c w with _ => _ end] =>
    destruct (c w) as [[[]|e] w1] end.
  - eauto.
  - unfold print, modify. eauto.
Qed.

Lemma process_document_returns file_path doc w :
  ∃ b w', process_document file_path doc w = (Ok b, w').
Proof.
  unfold process_document, try_except.
  match goal with |- context [match ?c w with _ => _ end] =>
    destruct (c w) as [[b|e] w1] end.
  - eauto.
  - unfold print. unfold_monad. eauto.
Qed.

Lemma build_index_world file_path w :
  snd (build_index file_path w) = w.
Proof.
  unfold build_index. unfold_monad.
  destruct (PyPDFLoader_load _ _) as [documents|e]; [|done].
  destruct (split_documents _ _ _) as [texts|e]; [|done].
  done.
Qed.

Lemma contains_true stores id vs :
  stores !! id = Some vs → contains stores (Some id) = true.
Proof. intros H. simpl. apply bool_decide_eq_true_2. eauto. Qed.

Lemma contains_inv stores o :
  contains stores o = true → ∃ id vs, o = Some id ∧ stores !! id = Some vs.
Proof.
  destruct o as [id|]; simpl; [|done].
  intros [vs H]%bool_decide_eq_true_1. eauto.
Qed.

Lemma page_of_cases doc :
  (page_of doc = None ∧ bad_page doc = false ∧ page_label doc = None) ∨
  (∃ page, page_of doc = Some (PInt page) ∧ bad_page doc = false ∧
           page_label doc = Some ("Page " +:+ pretty (page + 1))) ∨
  (∃ s, page_of doc = Some (PStr s) ∧ bad_page doc = true ∧ page_label doc = None).
Proof.
  unfold bad_page, page_label.
  destruct (page_of doc) as [[page|s]|]; eauto 8.
Qed.

Lemma extract_sources_cons doc docs acc :
  extract_sources (doc :: docs) acc =
  match page_of doc with
  | None => extract_sources docs acc
  | Some (PInt page) => extract_sources docs (acc ++ ["Page " +:+ pretty (page + 1)])
  | Some (PStr _) => Raise TypeError
  end.
Proof.
  unfold page_of. simpl. by destruct (metadata doc).
Qed.

Lemma extract_sources_eq docs acc :
  extract_sources docs acc =
  if existsb bad_page docs then Raise TypeError
  else Ok (acc ++ omap page_label docs).
Proof.
  revert acc. induction docs as [|doc docs IH]; intros acc.
  - simpl. by rewrite app_nil_r.
  - rewrite extract_sources_cons.
    change (existsb bad_page (doc :: docs))
      with (bad_page doc || existsb bad_page docs).
    change (omap page_label (doc :: docs))
      with (match page_label doc with
            | Some s => s :: omap page_label docs
            | None => omap page_label docs
            end).
    destruct (page_of_cases doc)
      as [(-> & -> & ->)|[(page & -> & -> & ->)|(s & -> & -> & ->)]]; simpl.
    + apply IH.
    + rewrite IH. destruct (existsb bad_page docs); [done|].
      by rewrite <- app_assoc.
    + done.
Qed.

(** What [ask_question] does for a registered document. *)
Lemma ask_question_registered request w id vs :
  document_id request = Some id →
  vector_stores w !! id = Some vs →
  ask_question request w =
  match RetrievalQA_call vs 3 (question request) with
  | Raise e => (Ok (inl (processing_error e)), w)
  | Ok result =>
      match extract_sources (source_documents result) [] with
      | Raise e => (Ok (inl (processing_error e)), w)
      | Ok srcs =>
          (Ok (inr (mkChatResponse (qa_result result) srcs id)),
           snd (save_chat id (question request) (qa_result result) w))
      end
  end.
Proof.
  intros Hid Hvs. unfold ask_question, getitem.
  unfold bind at 1. unfold get at 1. rewrite Hid.
  rewrite (contains_true _ _ _ Hvs). simpl.
  unfold try_except, bind at 1. unfold bind at 1. unfold get at 1.
  rewrite Hvs. unfold ret at 1. unfold bind at 1. unfold lift at 1. simpl.
  destruct (RetrievalQA_call vs 3 (question request)) as [result|e]; [|done].
  unfold bind at 1. unfold lift at 1.
  destruct (extract_sources _ _) as [srcs|e]; [|done].
  unfold bind at 1.
  destruct (save_chat_returns id (question request) (qa_result result) w) as [w1 ->].
  done.
Qed.

Lemma ask_question_unregistered request w :
  contains (vector_stores w) (document_id request) = false →
  ask_question request w = (Ok (inl NOT_FOUND_OR_PROCESSING), w).
Proof.
  intros H. unfold ask_question. unfold bind at 1. unfold get at 1.
  by rewrite H.
Qed.

Lemma ask_question_success request w resp w' :
  ask_question request w = (Ok (inr resp), w') →
  ∃ id vs result srcs,
    document_id request = Some id ∧ vector_stores w !! id = Some vs ∧
    RetrievalQA_call vs 3 (question request) = Ok result ∧
    extract_sources (source_documents result) [] = Ok srcs ∧
    resp = mkChatResponse (qa_result result) srcs id.
Proof.
  intros H.
  destruct (contains (vector_stores w) (document_id request)) eqn:Hc.
  - apply contains_inv in Hc as (id & vs & Hid & Hvs).
    rewrite (ask_question_registered _ _ _ _ Hid Hvs) in H.
    destruct (RetrievalQA_call vs 3 (question request)) as [result|e] eqn:Hq;
      [|discriminate].
    destruct (extract_sources (source_documents result) []) as [srcs|e] eqn:Hs;
      [|discriminate].
    exists id, vs, result, srcs. by simplify_eq.
  - rewrite (ask_question_unregistered _ _ Hc) in H. discriminate.
Qed.

Lemma omap_page_label_elem (docs : list Document) (s : string) :
  s ∈ omap page_label docs →
  ∃ doc page, doc ∈ docs ∧ page_of doc = Some (PInt page) ∧
              s = "Page " +:+ pretty (page + 1).
Proof.
  intros (doc & Hdoc & Hs)%list_elem_of_omap.
  destruct (page_of_cases doc)
    as [(_ & _ & E)|[(page & Hp & _ & E)|(s' & _ & _ & E)]];
    rewrite E in Hs; simplify_eq.
  eauto.
Qed.

Lemma labelled_count (docs : list Document) :
  existsb bad_page docs = false →
  length (omap page_label docs) =
  length (filter (fun doc => is_Some (page_of doc)) docs).
Proof.
  induction docs as [|doc docs IH]; [done|].
  change (existsb bad_page (doc :: docs))
    with (bad_page doc || existsb bad_page docs).
  change (omap page_label (doc :: docs))
    with (match page_label doc with
          | Some s => s :: omap page_label docs
          | None => omap page_label docs
          end).
  intros [Hb Hrest]%orb_false_elim. rewrite filter_cons.
  destruct (page_of_cases doc)
    as [(Hp & _ & ->)|[(page & Hp & _ & ->)|(s & _ & Hbad & _)]];
    [| |congruence]; rewrite Hp.
  - rewrite decide_False by (intros [? ?]; done). by apply IH.
  - rewrite decide_True by eauto. simpl. by rewrite IH.
Qed.

Lemma execute_select_chats conn doc :
  execute conn SELECT_CHATS [SText doc] =
  (modify (set_db_log (fun log => log ++ [mkSqlCall SELECT_CHATS [SText doc]])) ;;;
   fault_point ;;;
   rows <- get (fun w => db_chats w ++ staged_chats conn) ;;
   ret (conn, map (fun r => [SText (chat_question r); SText (chat_answer r);
                             STime (chat_created_at r)])
                  (order_by chat_created_at
                     (filter (fun r => chat_doc r = doc) rows)))).
Proof. reflexivity. Qed.

Lemma get_chats_issued doc w :
  issued (get_chats doc) w =
  match faults w with
  | Some _ :: _ => []
  | _ => [mkSqlCall SELECT_CHATS [SText doc]]
  end.
Proof.
  assert (Hrun : ∀ w0 : World, db_log w0 = db_log w →
    drop (length (db_log w)) (db_log (snd
      (try_except
         (r <- execute [] SELECT_CHATS [SText doc] ;;
          chats <- lift (rows_to_entries (snd r)) ;;
          close (fst r) ;;;
          respond chats)
         (fun e => raise_http 500 ("Error retrieving chats: " +:+ str e)) w0)))
    = [mkSqlCall SELECT_CHATS [SText doc]]).
  { intros w0 Hlog. rewrite execute_select_chats. unfold_monad. simpl.
    set (w1 := set_db_log _ w0).
    destruct (fault_point_cases w1)
      as [[-> _]|[(fs & -> & _)|(e & fs & -> & _)]];
      try (destruct (rows_to_entries _)); simpl;
      rewrite Hlog; apply drop_app_length. }
  unfold issued, get_chats, sqlite3_connect.
  unfold try_except at 1. unfold bind at 1. unfold bind at 1.
  destruct (fault_point_cases w) as [[Hp Hf]|[(fs & Hp & Hf)|(e & fs & Hp & Hf)]];
    rewrite Hf, Hp.
  - unfold ret at 1. specialize (Hrun w eq_refl).
    unfold try_except in Hrun. apply Hrun.
  - unfold ret at 1. specialize (Hrun (set_faults (fun _ => fs) w) eq_refl).
    unfold try_except in Hrun. apply Hrun.
  - unfold_monad. simpl. apply drop_all.
Qed.

(** ** Properties of the handlers *)

(** C1 (as amended): [ask_question] with a [document_id] that is no key of
    [vector_stores], whether it was never issued, is still being processed
    or failed to be processed, raises one and the same
    [HTTPException(400, "Document not found or still processing")] and
    changes nothing; the two cases are not told apart. *)
Theorem C1_unregistered_document_one_error request w :
  (∀ id, document_id request = Some id → vector_stores w !! id = None) →
  ask_question request w = (Ok (inl NOT_FOUND_OR_PROCESSING), w).
Proof.
  intros H. apply ask_question_unregistered.
  destruct (document_id request) as [id|] eqn:Hid; simpl; [|done].
  apply bool_decide_eq_false_2. rewrite (H id eq_refl). by intros [? ?].
Qed.

(** C2 (as amended): on a successful [ask_question], [sources] holds, in
    retrieval order, one label ["Page n+1"] for every retrieved passage whose
    metadata has an integer [page] n; every element comes from a retrieved
    passage.  Nothing removes repeated labels. *)
Theorem C2_sources_label_each_paged_passage request w resp w' :
  ask_question request w = (Ok (inr resp), w') →
  ∃ id vs result,
    document_id request = Some id ∧ vector_stores w !! id = Some vs ∧
    RetrievalQA_call vs 3 (question request) = Ok result ∧
    sources resp = omap page_label (source_documents result) ∧
    ∀ s, s ∈ sources resp →
      ∃ doc page, doc ∈ source_documents result ∧
                  page_of doc = Some (PInt page) ∧
                  s = "Page " +:+ pretty (page + 1).
Proof.
  intros (id & vs & result & srcs & Hid & Hvs & Hq & Hs & ->)%ask_question_success.
  exists id, vs, result. split_and!; try done.
  - rewrite extract_sources_eq in Hs.
    destruct (existsb bad_page _); simplify_eq. done.
  - simpl. intros s Hin. rewrite extract_sources_eq in Hs.
    destruct (existsb bad_page _); simplify_eq.
    by apply omap_page_label_elem.
Qed.

(** C3 (as amended): [ask_question] never lets an exception escape, and
    every failure is returned as an [HTTPException] of one of two shapes.
    When [document_id] is no key of [vector_stores] the result is status 400
    with the fixed detail.  When the document is registered and retrieval,
    generation or the collection of the sources raises [e], whatever [e] is,
    the result is status 500 with detail
    ["Error processing question: " + str(e)]; the class of [e] is not part
    of the reported error.  In both cases the world is unchanged, and no
    other error is ever returned. *)
Theorem C3_ask_failures_are_400_or_500 request w :
  (contains (vector_stores w) (document_id request) = false →
   ask_question request w = (Ok (inl NOT_FOUND_OR_PROCESSING), w)) ∧
  (∀ id vs e,
      document_id request = Some id → vector_stores w !! id = Some vs →
      (RetrievalQA_call vs 3 (question request) = Raise e ∨
       ∃ result, RetrievalQA_call vs 3 (question request) = Ok result ∧
                 extract_sources (source_documents result) [] = Raise e) →
      ask_question request w = (Ok (inl (processing_error e)), w)) ∧
  ∃ r w', ask_question request w = (Ok r, w') ∧
    ∀ err, r = inl err →
      (contains (vector_stores w) (document_id request) = false ∧
       err = NOT_FOUND_OR_PROCESSING) ∨
      (∃ id vs e,
          document_id request = Some id ∧ vector_stores w !! id = Some vs ∧
          (RetrievalQA_call vs 3 (question request) = Raise e ∨
           ∃ result, RetrievalQA_call vs 3 (question request) = Ok result ∧
                     extract_sources (source_documents result) [] = Raise e) ∧
          err = processing_error e).
Proof.
  split_and!.
  - apply ask_question_unregistered.
  - intros id vs e Hid Hvs [Hq|(result & Hq & Hs)];
      rewrite (ask_question_registered _ _ _ _ Hid Hvs), Hq; [done|].
    by rewrite Hs.
  - destruct (contains (vector_stores w) (document_id request)) eqn:Hc.
    + apply contains_inv in Hc as (id & vs & Hid & Hvs).
      rewrite (ask_question_registered _ _ _ _ Hid Hvs).
      destruct (RetrievalQA_call vs 3 (question request)) as [result|e] eqn:Hq.
      * destruct (extract_sources (source_documents result) []) as [srcs|e] eqn:Hs.
        -- eexists _, _. split; [done|]. intros err [=].
        -- eexists _, _. split; [done|]. intros err [= <-]. right.
           exists id, vs, e. eauto 8.
      * eexists _, _. split; [done|]. intros err [= <-]. right.
        exists id, vs, e. eauto 8.
    + rewrite (ask_question_unregistered _ _ Hc).
      eexists _, _. split; [done|]. intros err [= <-]. by left.
Qed.

(** C4 (as amended): when loading, chunking, or embedding and index
    construction raises [e], [process_document] catches it: it returns
    [False], having only printed the error.  No lifecycle state is recorded:
    [vector_stores], the database and everything else stay as they were. *)
Theorem C4_failed_ingestion_caught_nothing_recorded file_path doc w e :
  (PyPDFLoader_load file_path (files w !! file_path) = Raise e ∨
   (∃ documents,
       PyPDFLoader_load file_path (files w !! file_path) = Ok documents ∧
       split_documents 1000 200 documents = Raise e) ∨
   (∃ documents texts,
       PyPDFLoader_load file_path (files w !! file_path) = Ok documents ∧
       split_documents 1000 200 documents = Ok texts ∧
       FAISS_from_documents texts = Raise e)) →
  process_document file_path doc w =
  (Ok false,
   set_stdout (fun out => out ++ ["Error processing document: " +:+ str e]) w).
Proof.
  intros H. unfold process_document, try_except, build_index.
  unfold bind at 1. unfold bind at 1. unfold get at 1.
  unfold bind at 1. unfold lift at 1.
  destruct H as [->|[(documents & -> & H)|(documents & texts & -> & H1 & H2)]].
  - done.
  - unfold bind at 1. unfold lift at 1. by rewrite H.
  - unfold bind at 1. unfold lift at 1. rewrite H1.
    unfold lift at 1. by rewrite H2.
Qed.

(** C7: a retrieved passage without page metadata adds nothing to the
    sources and raises nothing, wherever it stands among the retrieved
    passages; on a successful [ask_question] the sources are as many as the
    retrieved passages that have page metadata, so at most as many as the
    retrieved passages. *)
Theorem C7_passage_without_page_is_skipped :
  (∀ before doc after acc,
      page_of doc = None →
      extract_sources (before ++ doc :: after) acc =
      extract_sources (before ++ after) acc) ∧
  (∀ request w resp w',
      ask_question request w = (Ok (inr resp), w') →
      ∃ id vs result,
        document_id request = Some id ∧ vector_stores w !! id = Some vs ∧
        RetrievalQA_call vs 3 (question request) = Ok result ∧
        length (sources resp) =
          length (filter (fun doc => is_Some (page_of doc))
                         (source_documents result)) ∧
        (length (sources resp) ≤ length (source_documents result))%nat).
Proof.
  split.
  - intros before doc after acc Hp. rewrite !extract_sources_eq.
    rewrite !existsb_app, !omap_app.
    change (existsb bad_page (doc :: after))
      with (bad_page doc || existsb bad_page after).
    change (omap page_label (doc :: after))
      with (match page_label doc with
            | Some s => s :: omap page_label after
            | None => omap page_label after
            end).
    unfold bad_page, page_label. by rewrite Hp.
  - intros request w resp w'
      (id & vs & result & srcs & Hid & Hvs & Hq & Hs & ->)%ask_question_success.
    exists id, vs, result. rewrite extract_sources_eq in Hs.
    destruct (existsb bad_page _) eqn:Hbad; simplify_eq. simpl.
    assert (Hlen := labelled_count _ Hbad).
    split_and!; try done.
    rewrite Hlen. apply length_filter.
Qed.

(** C8: [get_chats] hands [document_id] to the database as the bound
    parameter of a fixed statement: every call it issues is
    [execute(SELECT_CHATS, (document_id,))], it issues that call whenever the
    connection could be opened, and the texts of the statements issued are
    the same for any two values of [document_id]. *)
Theorem C8_get_chats_binds_document_id d1 d2 w :
  (∀ call, call ∈ issued (get_chats d1) w →
           sql_text call = SELECT_CHATS ∧ sql_params call = [SText d1]) ∧
  (faults w = [] → issued (get_chats d1) w = [mkSqlCall SELECT_CHATS [SText d1]]) ∧
  map sql_text (issued (get_chats d1) w) = map sql_text (issued (get_chats d2) w).
Proof.
  rewrite !get_chats_issued. split_and!.
  - intros call. destruct (faults w) as [|[e|] fs].
    + by intros ->%list_elem_of_singleton.
    + by intros ?%elem_of_nil.
    + by intros ->%list_elem_of_singleton.
  - by intros ->.
  - by destruct (faults w) as [|[e|] fs].
Qed.

(** C9: an upload whose content type is not ["application/pdf"] is refused
    with [HTTPException(400, "Only PDF files are allowed")] and the world is
    left as it was: no file written, no identifier drawn, no task queued or
    run, [vector_stores] and the database untouched. *)
Theorem C9_non_pdf_upload_rejected_unchanged file background_tasks w :
  content_type file ≠ Some "application/pdf" →
  upload_pdf file background_tasks w =
  (Ok (inl (mkHTTPException 400 "Only PDF files are allowed")), w).
Proof.
  intros H. unfold upload_pdf. by rewrite bool_decide_eq_false_2.
Qed.

(** C10: [save_chat] always returns normally, whatever the database does;
    hence when retrieval, generation and the collection of the sources
    succeed, [ask_question] responds with the generated answer in every
    world, also one where writing the chat record fails. *)
Theorem C10_answer_survives_save_chat_failure request w id vs result srcs :
  document_id request = Some id →
  vector_stores w !! id = Some vs →
  RetrievalQA_call vs 3 (question request) = Ok result →
  extract_sources (source_documents result) [] = Ok srcs →
  (∀ doc q a w0, ∃ w1, save_chat doc q a w0 = (Ok tt, w1)) ∧
  ∃ w', ask_question request w =
        (Ok (inr (mkChatResponse (qa_result result) srcs id)), w').
Proof.
  intros Hid Hvs Hq Hs. split; [apply save_chat_returns|].
  rewrite (ask_question_registered _ _ _ _ Hid Hvs), Hq, Hs. eauto.
Qed.

(** ** Further properties of the helpers and handlers *)

Lemma execute_insert_document conn i f t :
  execute conn INSERT_DOCUMENT [SText i; SText f; STime t] =
  (modify (set_db_log (fun log =>
     log ++ [mkSqlCall INSERT_DOCUMENT [SText i; SText f; STime t]])) ;;;
   fault_point ;;;
   ids <- get (fun w => map doc_id (db_documents w)) ;;
   if bool_decide (i ∈ ids ++ staged_document_ids conn)
   then raise (IntegrityError "documents")
   else ret (conn ++ [StagedDocument (mkDocumentRow i f t)], [])).
Proof. reflexivity. Qed.

Lemma execute_insert_chat conn i d q a t :
  execute conn INSERT_CHAT [SText i; SText d; SText q; SText a; STime t] =
  (modify (set_db_log (fun log =>
     log ++ [mkSqlCall INSERT_CHAT [SText i; SText d; SText q; SText a; STime t]])) ;;;
   fault_point ;;;
   ids <- get (fun w => map chat_id (db_chats w)) ;;
   if bool_decide (i ∈ ids ++ staged_chat_ids conn)
   then raise (IntegrityError "chats")
   else ret (conn ++ [StagedChat (mkChatRow i d q a t)], [])).
Proof. reflexivity. Qed.

Lemma execute_select_documents conn :
  execute conn SELECT_DOCUMENTS [] =
  (modify (set_db_log (fun log => log ++ [mkSqlCall SELECT_DOCUMENTS []])) ;;;
   fault_point ;;;
   rows <- get (fun w => db_documents w ++ staged_documents conn) ;;
   ret (conn, map (fun r => [SText (doc_id r); SText (doc_filename r);
                             STime (doc_uploaded_at r)])
                  (order_by (fun r => - doc_uploaded_at r) rows))).
Proof. reflexivity. Qed.

(** What [process_document] does once the index is built: lines 92-102. *)
Definition record_document (file_path document_id : string) (vector_store : VectorStore)
  : M bool :=
  modify (set_vector_stores (fun vs => <[document_id := vector_store]> vs)) ;;;
  conn <- sqlite3_connect ;;
  now <- datetime_now ;;
  r <- execute conn INSERT_DOCUMENT
         [SText document_id; SText (basename file_path); STime now] ;;
  commit (fst r) ;;;
  close (fst r) ;;;
  ret true.

Lemma process_document_eq file_path doc w :
  process_document file_path doc w =
  match fst (build_index file_path w) with
  | Raise e =>
      (Ok false,
       set_stdout (fun out => out ++ ["Error processing document: " +:+ str e]) w)
  | Ok vector_store =>
      try_except (record_document file_path doc vector_store)
        (fun e => print ("Error processing document: " +:+ str e) ;;; ret false) w
  end.
Proof.
  unfold process_document, record_document, try_except.
  unfold bind at 1. unfold bind at 6.
  pose proof (build_index_world file_path w) as Hw.
  destruct (build_index file_path w) as [[vs|e] w1]; simpl in *; subst w1; done.
Qed.

Ltac run_monad :=
  unfold try_except, bind, ret, raise, lift, get, modify, respond, raise_http,
    print, datetime_now, uuid4, sqlite3_connect, commit, close, fault_point,
    add_task;
  simpl.

(** Case analysis on the next entry of the fault list. *)
Ltac fault_split :=
  match goal with
  | |- context [match ?l with [] => _ | _ :: _ => _ end] =>
      is_var l; destruct l as [|[?|] ?]; simpl
  end.

Ltac run_db :=
  repeat (first [ rewrite execute_insert_document
                | rewrite execute_insert_chat
                | rewrite execute_select_documents
                | rewrite execute_select_chats
                | fault_split
                | progress case_bool_decide
                | progress run_monad ]).

Lemma record_document_outcome file_path doc vector_store w :
  ∃ b w',
    try_except (record_document file_path doc vector_store)
      (fun e => print ("Error processing document: " +:+ str e) ;;; ret false) w
    = (Ok b, w') ∧
    vector_stores w' = <[doc := vector_store]> (vector_stores w) ∧
    db_chats w' = db_chats w ∧ files w' = files w ∧ tasks w' = tasks w ∧
    counter w' = counter w ∧
    ((b = true ∧ (doc ∉ map doc_id (db_documents w)) ∧ stdout w' = stdout w ∧
      db_documents w' =
        db_documents w ++ [mkDocumentRow doc (basename file_path) (clock w)]) ∨
     (b = false ∧ db_documents w' = db_documents w ∧
      ∃ e, stdout w' = stdout w ++ ["Error processing document: " +:+ str e])).
Proof.
  unfold record_document.
  destruct w as [vs docs chats log fs q out flt ctr clk].
  run_db.
  all: eexists _, _; (split; [reflexivity|]); simpl;
    rewrite ?app_nil_r in *; split_and!; try done.
  all: first [left; split_and!; done | right; split_and!; eauto].
  all: by exists (IntegrityError "documents").
Qed.

Lemma save_chat_outcome doc q a w :
  ∃ w',
    save_chat doc q a w = (Ok tt, w') ∧
    vector_stores w' = vector_stores w ∧ db_documents w' = db_documents w ∧
    files w' = files w ∧ tasks w' = tasks w ∧
    ((uuid4_value (counter w) ∉ map chat_id (db_chats w)) ∧
     stdout w' = stdout w ∧
     db_chats w' =
       db_chats w ++ [mkChatRow (uuid4_value (counter w)) doc q a (clock w)] ∨
     db_chats w' = db_chats w ∧
     ∃ e, stdout w' = stdout w ++ ["Error saving chat: " +:+ str e]).
Proof.
  unfold save_chat.
  destruct w as [vs docs chats log fs tq out flt ctr clk].
  run_db.
  all: eexists; (split; [reflexivity|]); simpl;
    rewrite ?app_nil_r in *; split_and!; try done.
  all: first [left; split_and!; done | right; split_and!; eauto].
  all: by exists (IntegrityError "chats").
Qed.

Lemma save_chat_healthy doc q a w :
  faults w = [] →
  uuid4_value (counter w) ∉ map chat_id (db_chats w) →
  db_chats (snd (save_chat doc q a w)) =
  db_chats w ++ [mkChatRow (uuid4_value (counter w)) doc q a (clock w)] ∧
  faults (snd (save_chat doc q a w)) = [].
Proof.
  unfold save_chat.
  destruct w as [vs docs chats log fs tq out flt ctr clk]. simpl.
  intros -> Hfresh. run_db; rewrite ?app_nil_r in *; done.
Qed.

Lemma record_document_healthy file_path doc vector_store w :
  faults w = [] →
  doc ∉ map doc_id (db_documents w) →
  fst (try_except (record_document file_path doc vector_store)
         (fun e => print ("Error processing document: " +:+ str e) ;;; ret false) w)
  = Ok true ∧
  faults (snd (try_except (record_document file_path doc vector_store)
         (fun e => print ("Error processing document: " +:+ str e) ;;; ret false) w))
  = [].
Proof.
  unfold record_document.
  destruct w as [vs docs chats log fs tq out flt ctr clk]. simpl.
  intros -> Hfresh. run_db; rewrite ?app_nil_r in *; done.
Qed.

(** X1: when [process_document] returns [True], the index was built from the
    file, it is registered under [document_id], and exactly one row, with the
    identifier, the file's base name and the time of the call, has been
    added to [documents], whose identifiers did not include it before. *)
Theorem X1_process_document_true_registers_and_records file_path doc w w' :
  process_document file_path doc w = (Ok true, w') →
  ∃ vector_store,
    fst (build_index file_path w) = Ok vector_store ∧
    vector_stores w' = <[doc := vector_store]> (vector_stores w) ∧
    db_documents w' =
      db_documents w ++ [mkDocumentRow doc (basename file_path) (clock w)] ∧
    (doc ∉ map doc_id (db_documents w)) ∧
    db_chats w' = db_chats w ∧ stdout w' = stdout w.
Proof.
  rewrite process_document_eq.
  destruct (fst (build_index file_path w)) as [vs|e]; [|discriminate].
  destruct (record_document_outcome file_path doc vs w)
    as (b & w1 & -> & Hvs & Hc & _ & _ & _ & [(-> & Hn & Ho & Hd)|(-> & _)]);
    intros [= <-]; eauto 8.
Qed.

Lemma process_document_frame file_path doc w :
  ∃ b w',
    process_document file_path doc w = (Ok b, w') ∧
    db_chats w' = db_chats w ∧ files w' = files w ∧ tasks w' = tasks w ∧
    (∀ other, other ≠ doc → vector_stores w' !! other = vector_stores w !! other) ∧
    (b = false → db_documents w' = db_documents w).
Proof.
  rewrite process_document_eq.
  destruct (fst (build_index file_path w)) as [vs|e].
  - destruct (record_document_outcome file_path doc vs w)
      as (b & w1 & -> & Hvs & Hc & Hf & Ht & _ & Hcase).
    exists b, w1. split_and!; try done.
    + intros other Hne. rewrite Hvs. by rewrite lookup_insert_ne.
    + intros ->. by destruct Hcase as [(? & _)|(_ & ? & _)].
  - eexists _, _. split; [done|]. simpl. split_and!; done.
Qed.

(** X2: [process_document] never raises, and whatever happens it leaves the
    chats, the files, the queued tasks and the stores of all other documents
    as they were; when it returns [False] the [documents] table is
    unchanged. *)
Theorem X2_process_document_confined file_path doc w :
  ∃ b w',
    process_document file_path doc w = (Ok b, w') ∧
    db_chats w' = db_chats w ∧ files w' = files w ∧ tasks w' = tasks w ∧
    (∀ other, other ≠ doc → vector_stores w' !! other = vector_stores w !! other) ∧
    (b = false → db_documents w' = db_documents w).
Proof.
  rewrite process_document_eq.
  destruct (fst (build_index file_path w)) as [vs|e].
  - destruct (record_document_outcome file_path doc vs w)
      as (b & w1 & -> & Hvs & Hc & Hf & Ht & _ & Hcase).
    exists b, w1. split_and!; try done.
    + intros other Hne. rewrite Hvs. by rewrite lookup_insert_ne.
    + intros ->. by destruct Hcase as [(? & _)|(_ & ? & _)].
  - eexists _, _. split; [done|]. simpl. split_and!; done.
Qed.

(** X3: once the index is built, it is registered under [document_id]
    before the database is written: it is registered whether
    [process_document] then returns [True] or [False]. *)
Theorem X3_built_index_registered_whatever_the_result file_path doc w vector_store :
  fst (build_index file_path w) = Ok vector_store →
  vector_stores (snd (process_document file_path doc w)) !! doc = Some vector_store.
Proof.
  intros H. rewrite process_document_eq, H.
  destruct (record_document_outcome file_path doc vector_store w)
    as (b & w1 & -> & Hvs & _). simpl. rewrite Hvs. apply lookup_insert_eq.
Qed.

(** X4: when [documents] already has a row with this identifier (its primary
    key), [process_document] returns [False] and the table is unchanged. *)
Theorem X4_duplicate_identifier_not_recorded file_path doc w :
  doc ∈ map doc_id (db_documents w) →
  fst (process_document file_path doc w) = Ok false ∧
  db_documents (snd (process_document file_path doc w)) = db_documents w.
Proof.
  intros Hin. rewrite process_document_eq.
  destruct (fst (build_index file_path w)) as [vs|e]; [|done].
  destruct (record_document_outcome file_path doc vs w)
    as (b & w1 & -> & _ & _ & _ & _ & _ & [(_ & Hn & _)|(-> & Hd & _)]); done.
Qed.

(** X5: when the index can be built, the database does not fail and the
    identifier is new to [documents], [process_document] returns [True]. *)
Theorem X5_process_document_succeeds file_path doc w vector_store :
  fst (build_index file_path w) = Ok vector_store →
  faults w = [] →
  doc ∉ map doc_id (db_documents w) →
  fst (process_document file_path doc w) = Ok true.
Proof.
  intros H Hf Hn. rewrite process_document_eq, H.
  by apply record_document_healthy.
Qed.

(** X6: [save_chat] always returns, leaves [vector_stores], [documents], the
    files and the tasks alone, and either adds exactly one row holding the
    given document, question and answer, or adds none and prints the error. *)
Theorem X6_save_chat_adds_at_most_its_row doc q a w :
  ∃ w',
    save_chat doc q a w = (Ok tt, w') ∧
    vector_stores w' = vector_stores w ∧ db_documents w' = db_documents w ∧
    files w' = files w ∧ tasks w' = tasks w ∧
    ((∃ i t, db_chats w' = db_chats w ++ [mkChatRow i doc q a t]) ∨
     db_chats w' = db_chats w ∧
     ∃ e, stdout w' = stdout w ++ ["Error saving chat: " +:+ str e]).
Proof.
  destruct (save_chat_outcome doc q a w)
    as (w' & H & Hvs & Hd & Hf & Ht & [(_ & _ & Hc)|Hc]);
    exists w'; split_and!; eauto.
Qed.

(** X7: with a database that does not fail and a fresh chat identifier,
    [save_chat] adds the row (uuid, document, question, answer, now). *)
Theorem X7_save_chat_records doc q a w :
  faults w = [] →
  uuid4_value (counter w) ∉ map chat_id (db_chats w) →
  db_chats (snd (save_chat doc q a w)) =
  db_chats w ++ [mkChatRow (uuid4_value (counter w)) doc q a (clock w)].
Proof. intros Hf Hn. by apply save_chat_healthy. Qed.

(** X8: an [ask_question] that fails, with either error, leaves the world
    exactly as it was; in particular it saves no chat. *)
Theorem X8_failed_ask_changes_nothing request w err w' :
  ask_question request w = (Ok (inl err), w') → w' = w.
Proof.
  destruct (contains (vector_stores w) (document_id request)) eqn:Hc.
  - apply contains_inv in Hc as (id & vs & Hid & Hvs).
    rewrite (ask_question_registered _ _ _ _ Hid Hvs).
    destruct (RetrievalQA_call vs 3 (question request)) as [result|e].
    + destruct (extract_sources _ _) as [srcs|e]; [discriminate|].
      by intros [= _ <-].
    + by intros [= _ <-].
  - rewrite (ask_question_unregistered _ _ Hc). by intros [= _ <-].
Qed.

(** X9: [ask_question] never changes [vector_stores], the [documents]
    table, the files or the tasks; to [chats] it adds nothing or one row
    holding the asked document, the question and the generated answer. *)
Theorem X9_ask_only_appends_its_chat request w :
  vector_stores (snd (ask_question request w)) = vector_stores w ∧
  db_documents (snd (ask_question request w)) = db_documents w ∧
  files (snd (ask_question request w)) = files w ∧
  tasks (snd (ask_question request w)) = tasks w ∧
  (db_chats (snd (ask_question request w)) = db_chats w ∨
   ∃ id vs result i t,
     document_id request = Some id ∧ vector_stores w !! id = Some vs ∧
     RetrievalQA_call vs 3 (question request) = Ok result ∧
     db_chats (snd (ask_question request w)) =
       db_chats w ++ [mkChatRow i id (question request) (qa_result result) t]).
Proof.
  destruct (contains (vector_stores w) (document_id request)) eqn:Hc.
  - apply contains_inv in Hc as (id & vs & Hid & Hvs).
    rewrite (ask_question_registered _ _ _ _ Hid Hvs).
    destruct (RetrievalQA_call vs 3 (question request)) as [result|e] eqn:Hq;
      [|simpl; auto 6].
    destruct (extract_sources _ _) as [srcs|e]; [|simpl; auto 6].
    destruct (save_chat_outcome id (question request) (qa_result result) w)
      as (w1 & -> & Hvs1 & Hd & Hf & Ht & [(_ & _ & Hc)|(Hc & _)]); simpl;
      split_and!; try done; [right|by left].
    exists id, vs, result. eauto 8.
  - rewrite (ask_question_unregistered _ _ Hc). simpl. auto 6.
Qed.

(** X10: when nothing is retrieved, [ask_question] still returns the
    generated answer, with an empty list of sources. *)
Theorem X10_ask_without_passages_answers request w id vs result :
  document_id request = Some id →
  vector_stores w !! id = Some vs →
  RetrievalQA_call vs 3 (question request) = Ok result →
  source_documents result = [] →
  fst (ask_question request w) =
  Ok (inr (mkChatResponse (qa_result result) [] id)).
Proof.
  intros Hid Hvs Hq Hnil.
  by rewrite (ask_question_registered _ _ _ _ Hid Hvs), Hq, Hnil.
Qed.

(** [order_by] rearranges its list and leaves it sorted. *)
Lemma insert_by_perm {A} (key : A → Z) x (l : list A) :
  insert_by key x l ≡ₚ x :: l.
Proof.
  induction l as [|y l IH]; simpl; [done|].
  destruct (key x <? key y); [done|].
  rewrite IH. apply perm_swap.
Qed.

Lemma order_by_perm {A} (key : A → Z) (l : list A) :
  order_by key l ≡ₚ l.
Proof.
  unfold order_by.
  assert (H : ∀ acc, fold_left (fun acc x => insert_by key x acc) l acc ≡ₚ acc ++ l).
  { induction l as [|x l IH]; intros acc; simpl.
    - by rewrite app_nil_r.
    - rewrite IH, insert_by_perm. simpl. apply Permutation_middle. }
  apply H.
Qed.

Definition sorted_by {A} (key : A → Z) (l : list A) : Prop :=
  StronglySorted (fun a b => key a ≤ key b) l.

Lemma insert_by_sorted {A} (key : A → Z) x (l : list A) :
  sorted_by key l → sorted_by key (insert_by key x l).
Proof.
  unfold sorted_by. induction 1 as [|y l Hs IH Hall]; simpl.
  - repeat constructor.
  - destruct (key x <? key y) eqn:Hlt.
    + apply Z.ltb_lt in Hlt. constructor; [by constructor|].
      constructor; [lia|]. eapply Forall_impl; [exact Hall|].
      simpl. intros. lia.
    + apply Z.ltb_ge in Hlt. constructor; [done|].
      rewrite insert_by_perm. by constructor.
Qed.

Lemma order_by_sorted {A} (key : A → Z) (l : list A) :
  sorted_by key (order_by key l).
Proof.
  unfold order_by.
  assert (H : ∀ acc, sorted_by key acc →
              sorted_by key (fold_left (fun acc x => insert_by key x acc) l acc)).
  { induction l as [|x l IH]; intros acc Hacc; simpl; [done|].
    apply IH. by apply insert_by_sorted. }
  apply H. constructor.
Qed.

(** The entries the two listing handlers return for a row. *)
Definition chat_entry (r : ChatRow) : SqlVal * SqlVal * SqlVal :=
  (SText (chat_question r), SText (chat_answer r), STime (chat_created_at r)).

Definition document_entry (r : DocumentRow) : SqlVal * SqlVal * SqlVal :=
  (SText (doc_id r), SText (doc_filename r), STime (doc_uploaded_at r)).

Lemma rows_to_entries_chats (l : list ChatRow) :
  rows_to_entries
    (map (fun r => [SText (chat_question r); SText (chat_answer r);
                    STime (chat_created_at r)]) l)
  = Ok (map chat_entry l).
Proof. induction l as [|r l IH]; simpl; [done|]. by rewrite IH. Qed.

Lemma rows_to_entries_documents (l : list DocumentRow) :
  rows_to_entries
    (map (fun r => [SText (doc_id r); SText (doc_filename r);
                    STime (doc_uploaded_at r)]) l)
  = Ok (map document_entry l).
Proof. induction l as [|r l IH]; simpl; [done|]. by rewrite IH. Qed.

(** The rows [get_chats] reads for a document. *)
Definition chats_of (doc : string) (w : World) : list ChatRow :=
  order_by chat_created_at (filter (fun r => chat_doc r = doc) (db_chats w)).

Definition documents_listed (w : World) : list DocumentRow :=
  order_by (fun r => - doc_uploaded_at r) (db_documents w).

Lemma get_chats_outcome doc w :
  ∃ r w',
    get_chats doc w = (Ok r, w') ∧
    vector_stores w' = vector_stores w ∧ db_documents w' = db_documents w ∧
    db_chats w' = db_chats w ∧ files w' = files w ∧ tasks w' = tasks w ∧
    (r = inr (map chat_entry (chats_of doc w)) ∨
     ∃ e, r = inl (mkHTTPException 500 ("Error retrieving chats: " +:+ str e))) ∧
    (faults w = [] → r = inr (map chat_entry (chats_of doc w))).
Proof.
  unfold get_chats, chats_of.
  destruct w as [vs docs chats log fs tq out flt ctr clk].
  run_db.
  all: rewrite ?app_nil_r, ?rows_to_entries_chats; simpl.
  all: eexists _, _; (split; [reflexivity|]); simpl; split_and!; eauto.
  all: discriminate.
Qed.

Lemma get_documents_outcome w :
  ∃ r w',
    get_documents w = (Ok r, w') ∧
    vector_stores w' = vector_stores w ∧ db_documents w' = db_documents w ∧
    db_chats w' = db_chats w ∧ files w' = files w ∧ tasks w' = tasks w ∧
    (r = inr (map document_entry (documents_listed w)) ∨
     ∃ e, r = inl (mkHTTPException 500 ("Error retrieving documents: " +:+ str e))) ∧
    (faults w = [] → r = inr (map document_entry (documents_listed w))).
Proof.
  unfold get_documents, documents_listed.
  destruct w as [vs docs chats log fs tq out flt ctr clk].
  run_db.
  all: rewrite ?app_nil_r, ?rows_to_entries_documents; simpl.
  all: eexists _, _; (split; [reflexivity|]); simpl; split_and!; eauto.
  all: discriminate.
Qed.

Lemma sorted_by_descending {A} (key : A → Z) (l : list A) :
  sorted_by (fun r => - key r) l →
  StronglySorted (fun a b => key b ≤ key a) l.
Proof.
  unfold sorted_by. induction 1 as [|x l Hs IH Hall]; constructor; [done|].
  eapply Forall_impl; [exact Hall|]. simpl. intros. lia.
Qed.

(** X12: what [get_chats] returns for a document is exactly the chats
    recorded for that document and no other, each as (question, answer,
    created_at), in ascending order of creation time. *)
Theorem X12_get_chats_lists_the_documents_chats doc w chats w' :
  get_chats doc w = (Ok (inr chats), w') →
  ∃ rows,
    chats = map chat_entry rows ∧
    rows ≡ₚ filter (fun r => chat_doc r = doc) (db_chats w) ∧
    StronglySorted (fun a b => chat_created_at a ≤ chat_created_at b) rows.
Proof.
  destruct (get_chats_outcome doc w) as (r & w1 & -> & _ & _ & _ & _ & _ & Hr & _).
  intros [= -> <-]. destruct Hr as [[= ->]|[e [=]]].
  exists (chats_of doc w). split_and!; [done| |].
  - apply order_by_perm.
  - apply (order_by_sorted chat_created_at).
Qed.

(** The failure [get_chats] reports for an exception [e]. *)
Definition chats_error (e : Exn) : HTTPException :=
  mkHTTPException 500 ("Error retrieving chats: " +:+ str e).

(** X13: [get_chats] never lets an exception escape.  When opening the
    connection, or else executing the statement, raises [e], it answers
    status 500 with detail ["Error retrieving chats: " + str(e)] for that
    very [e]; otherwise it responds with the chats of the document.  In
    every case the tables and [vector_stores] are as before. *)
Theorem X13_get_chats_reads_only_and_reports_500 doc w :
  fst (get_chats doc w) =
    match faults w with
    | Some e :: _ => Ok (inl (chats_error e))
    | None :: Some e :: _ => Ok (inl (chats_error e))
    | _ => Ok (inr (map chat_entry (chats_of doc w)))
    end ∧
  vector_stores (snd (get_chats doc w)) = vector_stores w ∧
  db_documents (snd (get_chats doc w)) = db_documents w ∧
  db_chats (snd (get_chats doc w)) = db_chats w.
Proof.
  unfold get_chats, chats_of, chats_error.
  destruct w as [vs docs chats log fs tq out flt ctr clk].
  run_db.
  all: rewrite ?app_nil_r, ?rows_to_entries_chats; simpl.
  all: done.
Qed.

(** X14: what [get_documents] returns is every row of [documents], each as
    (id, filename, uploaded_at), latest upload first. *)
Theorem X14_get_documents_lists_all_latest_first w documents w' :
  get_documents w = (Ok (inr documents), w') →
  ∃ rows,
    documents = map document_entry rows ∧
    rows ≡ₚ db_documents w ∧
    StronglySorted (fun a b => doc_uploaded_at b ≤ doc_uploaded_at a) rows.
Proof.
  destruct (get_documents_outcome w) as (r & w1 & -> & _ & _ & _ & _ & _ & Hr & _).
  intros [= -> <-]. destruct Hr as [[= ->]|[e [=]]].
  exists (documents_listed w). split_and!; [done| |].
  - apply order_by_perm.
  - apply sorted_by_descending, order_by_sorted.
Qed.

(** X15: after a successful [ask_question], with a database that does not
    fail and a fresh chat identifier, [get_chats] for that document returns
    the question and the answer just given, stamped with the time of the
    call. *)
Theorem X15_answered_question_is_listed request w resp w' :
  faults w = [] →
  uuid4_value (counter w) ∉ map chat_id (db_chats w) →
  ask_question request w = (Ok (inr resp), w') →
  ∃ chats,
    fst (get_chats (chat_document_id resp) w') = Ok (inr chats) ∧
    (SText (question request), SText (answer resp), STime (clock w)) ∈ chats.
Proof.
  intros Hf Hn Hask.
  destruct (ask_question_success _ _ _ _ Hask)
    as (id & vs & result & srcs & Hid & Hvs & Hq & Hs & ->).
  rewrite (ask_question_registered _ _ _ _ Hid Hvs), Hq, Hs in Hask.
  injection Hask as <-. simpl.
  destruct (save_chat_healthy id (question request) (qa_result result) w Hf Hn)
    as [Hc Hf'].
  set (w1 := snd (save_chat id (question request) (qa_result result) w)) in *.
  destruct (get_chats_outcome id w1) as (r & w2 & -> & _ & _ & _ & _ & _ & _ & Hok).
  rewrite (Hok Hf'). eexists. split; [done|].
  apply (list_elem_of_fmap_2 chat_entry _
           (mkChatRow (uuid4_value (counter w)) id (question request)
                      (qa_result result) (clock w))).
  unfold chats_of. rewrite order_by_perm, Hc.
  apply list_elem_of_filter. split; [done|].
  apply elem_of_app. right. by apply list_elem_of_singleton.
Qed.

Definition PROCESSING_MESSAGE : string :=
  "PDF is being processed. You can start asking questions shortly.".

Lemma is_pdf file :
  content_type file = Some "application/pdf" →
  negb (bool_decide (content_type file = Some "application/pdf")) = false.
Proof. intros H. by rewrite bool_decide_eq_true_2. Qed.

(** X16: a PDF upload with background tasks, when the file can be written,
    answers at once with a new identifier: the content is saved in a new
    temporary file, one task for that file and identifier is queued after
    those already there, and [vector_stores] and the tables are as before. *)
Theorem X16_upload_saves_and_queues file w :
  content_type file = Some "application/pdf" →
  faults w = [] →
  ∃ w',
    upload_pdf file true w =
      (Ok (inr (mkUploadResponse PROCESSING_MESSAGE (uuid4_value (S (counter w))))),
       w') ∧
    files w' = <[tmp_name (counter w) ".pdf" := content file]> (files w) ∧
    tasks w' = tasks w ++ [(tmp_name (counter w) ".pdf", uuid4_value (S (counter w)))] ∧
    vector_stores w' = vector_stores w ∧
    db_documents w' = db_documents w ∧ db_chats w' = db_chats w.
Proof.
  intros Hpdf Hf. unfold upload_pdf, NamedTemporaryFile, write_file.
  rewrite (is_pdf _ Hpdf).
  destruct w as [vs docs chats log fs tq out flt ctr clk]. simpl in Hf. subst flt.
  run_monad. eexists. split; [reflexivity|]. simpl.
  split_and!; try done. apply insert_insert_eq.
Qed.

(** X17: asking about the identifier an upload has just returned, before the
    queued processing has run, is refused with the 400 error, provided the
    identifier was not registered before. *)
Theorem X17_ask_before_processing_is_refused file w q :
  content_type file = Some "application/pdf" →
  faults w = [] →
  vector_stores w !! uuid4_value (S (counter w)) = None →
  fst (ask_question (mkQuestionRequest q (Some (uuid4_value (S (counter w)))))
         (snd (upload_pdf file true w)))
  = Ok (inl NOT_FOUND_OR_PROCESSING).
Proof.
  intros Hpdf Hf Hnew. rewrite ask_question_unregistered; [done|].
  simpl. apply bool_decide_eq_false_2.
  unfold upload_pdf, NamedTemporaryFile, write_file.
  rewrite (is_pdf _ Hpdf).
  destruct w as [vs docs chats log fs tq out flt ctr clk]. simpl in *. subst flt.
  run_monad. rewrite Hnew. by intros [? ?].
Qed.

(** X18: a PDF upload without background tasks processes the file before
    it answers, and answers with the new identifier whether the processing
    succeeded or not.  When the loader, the splitter and FAISS succeed on
    the content, the store is registered under the returned identifier by
    the time of the response, and, the identifier being new to [documents],
    its row is recorded; when the loader raises [e], the error has been
    printed and [vector_stores] and [documents] are as before. *)
Theorem X18_synchronous_upload_always_answers file w :
  content_type file = Some "application/pdf" →
  faults w = [] →
  ∃ w',
    upload_pdf file false w =
      (Ok (inr (mkUploadResponse PROCESSING_MESSAGE (uuid4_value (S (counter w))))),
       w') ∧
    files w' !! tmp_name (counter w) ".pdf" = Some (content file) ∧
    tasks w' = tasks w ∧
    (∀ documents texts vector_store,
        PyPDFLoader_load (tmp_name (counter w) ".pdf") (Some (content file))
          = Ok documents →
        split_documents 1000 200 documents = Ok texts →
        FAISS_from_documents texts = Ok vector_store →
        vector_stores w' !! uuid4_value (S (counter w)) = Some vector_store ∧
        (uuid4_value (S (counter w)) ∉ map doc_id (db_documents w) →
         db_documents w' =
           db_documents w ++
           [mkDocumentRow (uuid4_value (S (counter w)))
              (basename (tmp_name (counter w) ".pdf")) (clock w)])) ∧
    (∀ e,
        PyPDFLoader_load (tmp_name (counter w) ".pdf") (Some (content file))
          = Raise e →
        vector_stores w' = vector_stores w ∧
        db_documents w' = db_documents w ∧
        stdout w' = stdout w ++ ["Error processing document: " +:+ str e]).
Proof.
  intros Hpdf Hf. unfold upload_pdf, NamedTemporaryFile, write_file.
  rewrite (is_pdf _ Hpdf).
  destruct w as [vs docs chats log fs tq out flt ctr clk]. simpl in Hf. subst flt.
  run_monad.
  match goal with |- context [process_document ?p ?d ?w0] =>
    set (w2 := w0);
    destruct (process_document_frame p d w2) as (b & w1 & Hrun & _ & Hfs & Htq & _);
    pose proof (process_document_eq p d w2) as Heq;
    assert (Hbuild : fst (build_index p w2) =
              match PyPDFLoader_load p (Some (content file)) with
              | Ok documents =>
                  match split_documents 1000 200 documents with
                  | Ok texts => FAISS_from_documents texts
                  | Raise e => Raise e
                  end
              | Raise e => Raise e
              end)
  end.
  { unfold build_index. subst w2. run_monad. rewrite lookup_insert_eq.
    destruct (PyPDFLoader_load _ _) as [documents|e]; simpl; [|done].
    by destruct (split_documents _ _ _). }
  rewrite Hbuild in Heq. rewrite Hrun in Heq |- *.
  eexists. split; [reflexivity|]. simpl. rewrite Hfs, Htq. subst w2. simpl.
  split_and!.
  - rewrite insert_insert_eq. apply lookup_insert_eq.
  - done.
  - intros documents texts vector_store Hload Hsplit Hfaiss.
    rewrite Hload, Hsplit, Hfaiss in Heq.
    match type of Heq with _ = try_except (record_document ?p ?d ?v) ?h ?w0 =>
      destruct (record_document_outcome p d v w0)
        as (b' & w3 & Hrec & Hvs & _ & _ & _ & _ & Hcase);
      assert (Htrue : uuid4_value (S ctr) ∉ map doc_id docs → b' = true)
        by (intros Hnew;
            destruct (record_document_healthy p d v w0 eq_refl Hnew) as [Ht _];
            rewrite Hrec in Ht; by injection Ht)
    end.
    rewrite Hrec in Heq. injection Heq as -> ->. simpl in *. split.
    + rewrite Hvs. apply lookup_insert_eq.
    + intros Hnew. specialize (Htrue Hnew).
      by destruct Hcase as [(_ & _ & _ & Hd)|(-> & _)].
  - intros e Hload. rewrite Hload in Heq. by injection Heq as -> ->.
Qed.

(** X19: when the temporary file cannot be created, the exception escapes
    [upload_pdf]: no identifier is drawn, nothing is saved, queued or
    processed. *)
Theorem X19_upload_io_failure_escapes file background_tasks w e rest :
  content_type file = Some "application/pdf" →
  faults w = Some e :: rest →
  upload_pdf file background_tasks w = (Raise e, set_faults (fun _ => rest) w).
Proof.
  intros Hpdf Hf. unfold upload_pdf, NamedTemporaryFile.
  rewrite (is_pdf _ Hpdf).
  destruct w as [vs docs chats log fs tq out flt ctr clk]. simpl in Hf. subst flt.
  by run_monad.
Qed.

(** X21: upload, queued processing, question.  When the file is written, the
    loader, the splitter and FAISS succeed on it, the database does not fail
    and the new identifier is not yet in [documents], then after the
    background tasks have run the store is registered under the identifier
    the upload returned, [documents] has its row, and a question about it is
    no longer refused as not found or still processing. *)
Theorem X21_uploaded_document_becomes_askable file w documents texts vector_store q :
  content_type file = Some "application/pdf" →
  faults w = [] →
  tasks w = [] →
  uuid4_value (S (counter w)) ∉ map doc_id (db_documents w) →
  PyPDFLoader_load (tmp_name (counter w) ".pdf") (Some (content file)) = Ok documents →
  split_documents 1000 200 documents = Ok texts →
  FAISS_from_documents texts = Ok vector_store →
  vector_stores (snd (run_background_tasks (snd (upload_pdf file true w))))
    !! uuid4_value (S (counter w)) = Some vector_store ∧
  db_documents (snd (run_background_tasks (snd (upload_pdf file true w)))) =
    db_documents w ++
    [mkDocumentRow (uuid4_value (S (counter w)))
       (basename (tmp_name (counter w) ".pdf")) (clock w)] ∧
  fst (ask_question (mkQuestionRequest q (Some (uuid4_value (S (counter w)))))
         (snd (run_background_tasks (snd (upload_pdf file true w)))))
  ≠ Ok (inl NOT_FOUND_OR_PROCESSING).
Proof.
  intros Hpdf Hf Ht Hnew Hload Hsplit Hfaiss.
  unfold upload_pdf, NamedTemporaryFile, write_file.
  rewrite (is_pdf _ Hpdf).
  destruct w as [vs docs chats log fs tq out flt ctr clk]. simpl in *. subst flt tq.
  run_monad. unfold run_background_tasks. run_monad. run_monad.
  rewrite process_document_eq.
  match goal with |- context [build_index ?p ?w0] =>
    assert (Hb : fst (build_index p w0) = Ok vector_store)
  end.
  { unfold build_index. run_monad. rewrite lookup_insert_eq, Hload. simpl.
    rewrite Hsplit. simpl. by rewrite Hfaiss. }
  rewrite Hb.
  match goal with |- context [try_except (record_document ?p ?d ?v) ?h ?w0] =>
    destruct (record_document_outcome p d v w0)
      as (b & w1 & Hrun & Hvs & _ & _ & _ & _ & Hcase);
    destruct (record_document_healthy p d v w0 eq_refl Hnew) as [Htrue _]
  end.
  rewrite Hrun in Htrue |- *. simpl in Htrue. injection Htrue as ->. simpl.
  destruct Hcase as [(_ & _ & _ & Hd)|([=] & _)].
  assert (Hreg : vector_stores w1 !! uuid4_value (S ctr) = Some vector_store)
    by (rewrite Hvs; apply lookup_insert_eq).
  simpl in Hd. split_and!; [done|done|].
  rewrite (ask_question_registered
             (mkQuestionRequest q (Some (uuid4_value (S ctr)))) w1 _ _ eq_refl Hreg).
  simpl.
  destruct (RetrievalQA_call vector_store 3 q) as [result|e]; [|done].
  by destruct (extract_sources _ _).
Qed.

(** X22: every statement [save_chat] sends to the database is the fixed
    [INSERT INTO chats] text, with the identifier, the document, the
    question, the answer and the time as bound parameters: the question and
    the answer never become part of the statement text. *)
Theorem X22_save_chat_binds_its_values doc q a w call :
  call ∈ issued (save_chat doc q a) w →
  sql_text call = INSERT_CHAT ∧
  sql_params call =
    [SText (uuid4_value (counter w)); SText doc; SText q; SText a; STime (clock w)].
Proof.
  unfold issued, save_chat.
  destruct w as [vs docs chats log fs tq out flt ctr clk].
  run_db; rewrite ?drop_app_length, ?drop_all;
    first [by intros ?%elem_of_nil | by intros ->%list_elem_of_singleton].
Qed.

(** X23: every statement [process_document] sends to the database is the
    fixed [INSERT INTO documents] text, with the identifier, the file's base
    name and the time as bound parameters. *)
Theorem X23_process_document_binds_its_values file_path doc w call :
  call ∈ issued (process_document file_path doc) w →
  sql_text call = INSERT_DOCUMENT ∧
  sql_params call = [SText doc; SText (basename file_path); STime (clock w)].
Proof.
  unfold issued. rewrite process_document_eq.
  destruct (fst (build_index file_path w)) as [vector_store|e].
  - unfold record_document.
    destruct w as [vs docs chats log fs tq out flt ctr clk].
    run_db; rewrite ?drop_app_length, ?drop_all;
      first [by intros ?%elem_of_nil | by intros ->%list_elem_of_singleton].
  - simpl. rewrite drop_all. by intros ?%elem_of_nil.
Qed.

End Backend.

(** * The chunker *)

Module ChunkerFacts.
Import Chunker.

Local Open Scope nat_scope.

Section Chunks.

Variables chunk_size overlap : nat.
Hypothesis overlap_lt : overlap < chunk_size.
Variable text : list ascii.

Lemma chunks_length fuel start p :
  p ∈ chunks fuel chunk_size overlap text start →
  length (passage_text p) ≤ chunk_size.
Proof.
  revert start. induction fuel as [|fuel IH]; intros start; simpl.
  - by intros ?%elem_of_nil.
  - destruct (length text <=? start + chunk_size).
    + intros ->%list_elem_of_singleton. simpl. rewrite length_take. lia.
    + intros [->|Hin]%elem_of_cons; [|by eapply IH].
      simpl. rewrite length_take. lia.
Qed.

(** A passage is the text between its offsets. *)
Lemma chunks_text fuel start p :
  p ∈ chunks fuel chunk_size overlap text start →
  passage_text p = take (end_offset p - start_offset p) (drop (start_offset p) text) ∧
  end_offset p ≤ length text.
Proof.
  revert start. induction fuel as [|fuel IH]; intros start; simpl.
  - by intros ?%elem_of_nil.
  - assert (Hp : ∀ q, q = mkPassage (take chunk_size (drop start text)) start
                           (min (start + chunk_size) (length text)) →
              passage_text q =
                take (end_offset q - start_offset q) (drop (start_offset q) text) ∧
              end_offset q ≤ length text).
    { intros q ->. simpl. split; [|lia].
      destruct (decide (start + chunk_size ≤ length text)).
      - f_equal. lia.
      - rewrite !take_ge; [done| |]; rewrite length_drop; lia. }
    destruct (length text <=? start + chunk_size).
    + intros ->%list_elem_of_singleton. by apply Hp.
    + intros [->|Hin]%elem_of_cons; [by apply Hp|by eapply IH].
Qed.

Lemma chunks_consecutive fuel start i p q :
  chunks fuel chunk_size overlap text start !! i = Some p →
  chunks fuel chunk_size overlap text start !! S i = Some q →
  start_offset q = start_offset p + (chunk_size - overlap) ∧
  end_offset p = start_offset q + overlap ∧
  drop (chunk_size - overlap) (passage_text p) = take overlap (passage_text q) ∧
  length (take overlap (passage_text q)) = overlap.
Proof.
  revert start i. induction fuel as [|fuel IH]; intros start i; simpl; [done|].
  destruct (length text <=? start + chunk_size) eqn:Hle.
  - intros _ Hq. by destruct i.
  - apply Nat.leb_gt in Hle. destruct i as [|i]; simpl; [|by apply IH].
    intros [= <-]. destruct fuel as [|fuel']; simpl; [done|].
    set (start' := start + (chunk_size - overlap)).
    assert (Hq : ∀ q', q' = mkPassage (take chunk_size (drop start' text)) start'
                              (min (start' + chunk_size) (length text)) →
      start_offset q' = start + (chunk_size - overlap) ∧
      min (start + chunk_size) (length text) = start_offset q' + overlap ∧
      drop (chunk_size - overlap) (take chunk_size (drop start text)) =
        take overlap (passage_text q') ∧
      length (take overlap (passage_text q')) = overlap).
    { intros q' ->. simpl. subst start'. split_and!; [done|lia| |].
      - rewrite skipn_firstn_comm, drop_drop, take_take.
        f_equal; lia.
      - rewrite take_take, length_take, length_drop. lia. }
    destruct (length text <=? start' + chunk_size); intros [= <-]; by apply Hq.
Qed.

(** The fuel [split] gives is enough: the last passage ends where the text
    ends. *)
Lemma chunks_reach_end fuel start :
  start ≤ length text → length text < start + fuel →
  ∃ p, last (chunks fuel chunk_size overlap text start) = Some p ∧
       end_offset p = length text.
Proof.
  revert start. induction fuel as [|fuel IH]; intros start Hs Hf; [lia|].
  simpl. destruct (length text <=? start + chunk_size) eqn:Hle.
  - apply Nat.leb_le in Hle. eexists. split; [done|]. simpl. lia.
  - apply Nat.leb_gt in Hle.
    destruct (IH (start + (chunk_size - overlap))) as (p & Hlast & Hend); [lia..|].
    exists p. split; [|done].
    destruct (chunks fuel _ _ _ _) as [|p' l] eqn:E; [done|].
    by rewrite last_cons, Hlast.
Qed.

End Chunks.

(** The offsets at which passages start depend on the length of the text
    only. *)
Fixpoint starts (fuel chunk_size overlap len start : nat) : list nat :=
  match fuel with
  | O => []
  | S fuel' =>
      if len <=? start + chunk_size then [start]
      else start :: starts fuel' chunk_size overlap len (start + (chunk_size - overlap))
  end.

Lemma chunks_starts fuel chunk_size overlap text start :
  map start_offset (chunks fuel chunk_size overlap text start) =
  starts fuel chunk_size overlap (length text) start.
Proof.
  revert start. induction fuel as [|fuel IH]; intros start; simpl; [done|].
  destruct (length text <=? start + chunk_size); simpl; [done|].
  by rewrite IH.
Qed.

(** C5: with the default configuration every passage has at most 1000
    characters; any two consecutive passages overlap by exactly 200
    characters, the second starting 800 characters into the first and
    opening with the first one's last 200 characters; the passages reach the
    end of the text; a text of 2400 characters gives 3 passages, starting at
    offsets 0, 800 and 1600. *)
Theorem C5_default_chunks_overlap_by_200 (text : list ascii) :
  (∀ p, p ∈ split default_chunk_size default_overlap text →
        length (passage_text p) ≤ 1000) ∧
  (∀ i p q,
      split default_chunk_size default_overlap text !! i = Some p →
      split default_chunk_size default_overlap text !! S i = Some q →
      start_offset q = start_offset p + 800 ∧
      end_offset p = start_offset q + 200 ∧
      drop 800 (passage_text p) = take 200 (passage_text q) ∧
      length (take 200 (passage_text q)) = 200) ∧
  (∃ p, last (split default_chunk_size default_overlap text) = Some p ∧
        end_offset p = length text) ∧
  (length text = 2400 →
   map start_offset (split default_chunk_size default_overlap text) = [0; 800; 1600]).
Proof.
  assert (Hlt : default_overlap < default_chunk_size)
    by (unfold default_overlap, default_chunk_size; lia).
  split_and!.
  - intros p Hp. by apply chunks_length in Hp.
  - intros i p q Hp Hq.
    destruct (chunks_consecutive _ _ Hlt _ _ _ _ _ _ Hp Hq) as (H1 & H2 & H3 & H4).
    unfold default_overlap, default_chunk_size in *.
    change (1000 - 200) with 800 in *. done.
  - apply (chunks_reach_end _ _ Hlt text (S (length text)) 0); lia.
  - intros Hlen. unfold split. rewrite chunks_starts, Hlen. by vm_compute.
Qed.

(** C6: a text shorter than the chunk size gives exactly one passage, and
    that passage is the whole text. *)
Theorem C6_short_text_is_one_passage chunk_size overlap (text : list ascii) :
  length text < chunk_size →
  split chunk_size overlap text = [mkPassage text 0 (length text)].
Proof.
  intros Hlen. unfold split. simpl.
  replace (length text <=? chunk_size) with true
    by (symmetry; apply Nat.leb_le; lia).
  rewrite drop_0, take_ge by lia. do 2 f_equal. lia.
Qed.

(** A text of 2400 characters. *)
Definition text_2400 : list ascii := replicate 2400 "a"%char.

Lemma C5_witness :
  map start_offset (split default_chunk_size default_overlap text_2400) = [0; 800; 1600] ∧
  ∀ p q,
    split default_chunk_size default_overlap text_2400 !! 0 = Some p →
    split default_chunk_size default_overlap text_2400 !! 1 = Some q →
    start_offset q = start_offset p + 800 ∧
    end_offset p = start_offset q + 200 ∧
    drop 800 (passage_text p) = take 200 (passage_text q) ∧
    length (take 200 (passage_text q)) = 200.
Proof.
  destruct (C5_default_chunks_overlap_by_200 text_2400) as (_ & Hpair & _ & Hlen).
  split; [apply Hlen; vm_compute; reflexivity|apply Hpair].
Defined.

Lemma C6_witness :
  split default_chunk_size default_overlap (replicate 400 "a"%char) =
  [mkPassage (replicate 400 "a"%char) 0 (length (replicate 400 "a"%char))].
Proof.
  apply (C6_short_text_is_one_passage default_chunk_size default_overlap).
  rewrite length_replicate. unfold default_chunk_size. lia.
Defined.

End ChunkerFacts.

(** * Concrete runs *)

Module Scenarios.

(** A store that keeps the chunks it was built from. *)
Definition Store : Type := list Document.

(** A loader for one-page files: an empty file cannot be parsed. *)
Definition load (file_path : string) (data : option string) : Result (list Document) :=
  match data with
  | None => Raise (mkExn "ValueError" ("File path " +:+ file_path +:+ " is not a valid file"))
  | Some "" => Raise (mkExn "EmptyFileError" "Cannot read an empty file")
  | Some text =>
      Ok [mkDocument text (Some {["source" := PStr file_path; "page" := PInt 0]})]
  end.

(** A splitter that cuts a long page in two and keeps the page's metadata. *)
Definition cut (chunk_size chunk_overlap : Z) (doc : Document) : list Document :=
  let n := Z.to_nat chunk_size in
  let text := page_content doc in
  if (String.length text <=? n)%nat then [doc]
  else [mkDocument (String.substring 0 n text) (metadata doc);
        mkDocument (String.substring (n - Z.to_nat chunk_overlap)
                              (String.length text) text) (metadata doc)].

Definition split_pages (chunk_size chunk_overlap : Z) (docs : list Document)
  : Result (list Document) :=
  Ok (flat_map (cut chunk_size chunk_overlap) docs).

Definition from_documents (texts : list Document) : Result Store :=
  match texts with
  | [] => Raise (mkExn "IndexError" "list index out of range")
  | _ => Ok texts
  end.

(** A chain that retrieves the first [k] chunks and answers. *)
Definition qa (store : Store) (k : Z) (q : string) : Result QAResult :=
  Ok (mkQAResult ("Answer to: " +:+ q) (take (Z.to_nat k) store)).

(** The generation model cannot be reached. *)
Definition qa_unreachable (store : Store) (k : Z) (q : string) : Result QAResult :=
  Raise (mkExn "TimeoutError" "").

(** The index rejects the query vector. *)
Definition qa_mismatch (store : Store) (k : Z) (q : string) : Result QAResult :=
  Raise (mkExn "AssertionError" "").

Definition uuid (n : nat) : string := "doc-" +:+ pretty n.
Definition tmp (n : nat) (suffix : string) : string :=
  "/tmp/tmp" +:+ pretty n +:+ suffix.

Definition upload := upload_pdf load split_pages from_documents uuid tmp.
Definition ingest := process_document load split_pages from_documents.
Definition run_queue := run_background_tasks load split_pages from_documents.
Definition ask := ask_question qa uuid.

Definition w0 : @World Store := mkWorld ∅ [] [] [] ∅ [] [] [] 0%nat 0.

Definition pdf (text : string) : UploadFile :=
  mkUploadFile (Some "application/pdf") text.

(** After an upload whose processing is queued and has not run yet. *)
Definition w_pending : @World Store := snd (upload (pdf "Hello, world.") true w0).

(** After the queued processing ran. *)
Definition w_ready : @World Store := snd (run_queue w_pending).

(** After the upload of an empty file and its failed processing. *)
Definition w_failed : @World Store := snd (run_queue (snd (upload (pdf "") true w0))).

(** A page of 1200 characters, cut into two chunks of the same page. *)
Definition long_page : string := String.string_of_list_ascii (replicate 1200 "a"%char).
Definition w_long : @World Store := snd (upload (pdf long_page) false w0).

(** A registered store one of whose chunks has no page and one no metadata. *)
Definition w_mixed : @World Store :=
  set_vector_stores
    (fun _ => {["doc-1" := [mkDocument "first" (Some {["page" := PInt 4]});
                            mkDocument "second" (Some {["source" := PStr "a.pdf"]});
                            mkDocument "third" None]]})
    w0.

(** The database refuses the next call. *)
Definition w_locked : @World Store :=
  set_faults (fun _ => [Some (mkExn "OperationalError" "database is locked")]) w_ready.

Definition MESSAGE : string :=
  "PDF is being processed. You can start asking questions shortly.".

Example upload_then_ask :
  fst (upload (pdf "Hello, world.") true w0) = Ok (inr (mkUploadResponse MESSAGE "doc-1")) ∧
  tasks w_pending = [("/tmp/tmp0.pdf", "doc-1")] ∧
  fst (ask (mkQuestionRequest "What?" (Some "doc-1")) w_ready) =
    Ok (inr (mkChatResponse "Answer to: What?" ["Page 1"] "doc-1")) ∧
  db_documents w_ready = [mkDocumentRow "doc-1" "tmp0.pdf" 0] ∧
  db_chats (snd (ask (mkQuestionRequest "What?" (Some "doc-1")) w_ready)) =
    [mkChatRow "doc-2" "doc-1" "What?" "Answer to: What?" 1].
Proof. vm_compute. done. Qed.

Definition what (id : string) : QuestionRequest :=
  mkQuestionRequest "What?" (Some id).

Definition hello_doc : Document :=
  mkDocument "Hello, world."
    (Some {["source" := PStr "/tmp/tmp0.pdf"; "page" := PInt 0]}).

Definition hello_result : QAResult :=
  mkQAResult "Answer to: What?" [hello_doc].

(** The world in which the empty file has been uploaded and not processed. *)
Definition w_corrupt : @World Store := snd (upload (pdf "") true w0).

(** C1, refuted as stated: the identifier ["doc-1"] was issued by an upload
    whose processing is still queued, ["doc-7"] was never issued; asking
    about either raises the same error. *)
Lemma C1_pending_and_unknown_same_error :
  fst (upload (pdf "Hello, world.") true w0) =
    Ok (inr (mkUploadResponse MESSAGE "doc-1")) ∧
  tasks w_pending = [("/tmp/tmp0.pdf", "doc-1")] ∧
  fst (ask (what "doc-1") w_pending) = Ok (inl NOT_FOUND_OR_PROCESSING) ∧
  fst (ask (what "doc-7") w_pending) = Ok (inl NOT_FOUND_OR_PROCESSING).
Proof. vm_compute. done. Qed.

Lemma C1_witness :
  ask (what "doc-7") w_pending = (Ok (inl NOT_FOUND_OR_PROCESSING), w_pending).
Proof.
  unfold ask. apply C1_unregistered_document_one_error.
  intros id [= <-]. vm_compute. reflexivity.
Defined.

(** C2, refuted as stated: a page of 1200 characters is indexed as two
    chunks of page 0; both are retrieved and the page is cited twice. *)
Lemma C2_same_page_cited_twice :
  fst (ask (what "doc-1") w_long) =
  Ok (inr (mkChatResponse "Answer to: What?" ["Page 1"; "Page 1"] "doc-1")).
Proof. vm_compute. done. Qed.

Lemma C2_witness :
  ∃ id vs result,
    document_id (what "doc-1") = Some id ∧ vector_stores w_ready !! id = Some vs ∧
    qa vs 3 (question (what "doc-1")) = Ok result ∧
    sources (mkChatResponse "Answer to: What?" ["Page 1"] "doc-1") =
      omap page_label (source_documents result) ∧
    ∀ s, s ∈ sources (mkChatResponse "Answer to: What?" ["Page 1"] "doc-1") →
      ∃ doc page, doc ∈ source_documents result ∧
                  page_of doc = Some (PInt page) ∧
                  s = "Page " +:+ pretty (page + 1).
Proof.
  apply (C2_sources_label_each_paged_passage qa uuid (what "doc-1") w_ready
           (mkChatResponse "Answer to: What?" ["Page 1"] "doc-1")
           (snd (ask (what "doc-1") w_ready))).
  vm_compute. reflexivity.
Defined.

(** C3, refuted as stated: a document whose processing failed and an
    identifier that never existed get the same error, and an unreachable
    generation model and a query the index rejects are reported by the very
    same [HTTPException]. *)
Lemma C3_failures_reported_alike :
  stdout w_failed = ["Error processing document: Cannot read an empty file"] ∧
  fst (ask (what "doc-1") w_failed) = Ok (inl NOT_FOUND_OR_PROCESSING) ∧
  fst (ask (what "doc-7") w_failed) = Ok (inl NOT_FOUND_OR_PROCESSING) ∧
  fst (ask_question qa_unreachable uuid (what "doc-1") w_ready) =
    Ok (inl (mkHTTPException 500 "Error processing question: ")) ∧
  fst (ask_question qa_mismatch uuid (what "doc-1") w_ready) =
    Ok (inl (mkHTTPException 500 "Error processing question: ")).
Proof. vm_compute. done. Qed.

Lemma C3_witness :
  ask_question qa_unreachable uuid (what "doc-1") w_ready =
  (Ok (inl (processing_error (mkExn "TimeoutError" ""))), w_ready).
Proof.
  apply (proj1 (proj2 (C3_ask_failures_are_400_or_500 qa_unreachable uuid
                         (what "doc-1") w_ready))
           "doc-1" [hello_doc] (mkExn "TimeoutError" "")).
  - reflexivity.
  - vm_compute. reflexivity.
  - left. reflexivity.
Defined.

(** C4, refuted as stated: processing the empty file fails and is caught,
    and the world afterwards differs from the one before by the printed line
    only: nothing says that ["doc-1"] failed. *)
Lemma C4_failure_leaves_no_record :
  tasks w_corrupt = [("/tmp/tmp0.pdf", "doc-1")] ∧
  ingest "/tmp/tmp0.pdf" "doc-1" w_corrupt =
    (Ok false,
     set_stdout (fun _ => ["Error processing document: Cannot read an empty file"])
                w_corrupt) ∧
  vector_stores (snd (ingest "/tmp/tmp0.pdf" "doc-1" w_corrupt)) = ∅ ∧
  db_documents (snd (ingest "/tmp/tmp0.pdf" "doc-1" w_corrupt)) = [] ∧
  fst (ask (what "doc-1") (snd (ingest "/tmp/tmp0.pdf" "doc-1" w_corrupt))) =
    fst (ask (what "doc-1") w_corrupt).
Proof. vm_compute. done. Qed.

Lemma C4_witness :
  ingest "/tmp/tmp0.pdf" "doc-1" w_corrupt =
  (Ok false,
   set_stdout
     (fun out => out ++ ["Error processing document: " +:+
                         str (mkExn "EmptyFileError" "Cannot read an empty file")])
     w_corrupt).
Proof.
  unfold ingest. apply C4_failed_ingestion_caught_nothing_recorded.
  left. vm_compute. reflexivity.
Defined.

Lemma C7_witness :
  fst (ask (what "doc-1") w_mixed) =
    Ok (inr (mkChatResponse "Answer to: What?" ["Page 5"] "doc-1")) ∧
  ∃ id vs result,
    document_id (what "doc-1") = Some id ∧ vector_stores w_mixed !! id = Some vs ∧
    qa vs 3 (question (what "doc-1")) = Ok result ∧
    length (sources (mkChatResponse "Answer to: What?" ["Page 5"] "doc-1")) =
      length (filter (fun doc => is_Some (page_of doc)) (source_documents result)) ∧
    (length (sources (mkChatResponse "Answer to: What?" ["Page 5"] "doc-1"))
     ≤ length (source_documents result))%nat.
Proof.
  split; [by vm_compute|].
  apply (proj2 (C7_passage_without_page_is_skipped qa uuid) (what "doc-1") w_mixed
           (mkChatResponse "Answer to: What?" ["Page 5"] "doc-1")
           (snd (ask (what "doc-1") w_mixed))).
  vm_compute. reflexivity.
Defined.

Definition quoted : string := "x' OR '1'='1".

Lemma C8_witness :
  issued (get_chats quoted) w_ready = [mkSqlCall SELECT_CHATS [SText quoted]] ∧
  map sql_text (issued (get_chats quoted) w_ready) =
  map sql_text (issued (get_chats "doc-1") w_ready).
Proof.
  destruct (C8_get_chats_binds_document_id quoted "doc-1" w_ready) as (_ & H1 & H2).
  split; [apply H1; reflexivity|exact H2].
Defined.

Lemma C9_witness :
  upload (mkUploadFile (Some "image/png") "PNG") true w0 =
  (Ok (inl (mkHTTPException 400 "Only PDF files are allowed")), w0).
Proof.
  unfold upload. apply C9_non_pdf_upload_rejected_unchanged. simpl. discriminate.
Defined.

Lemma C10_witness :
  (∀ doc q a (w : @World Store), ∃ w1, save_chat uuid doc q a w = (Ok tt, w1)) ∧
  ∃ w', ask (what "doc-1") w_locked =
        (Ok (inr (mkChatResponse (qa_result hello_result) ["Page 1"] "doc-1")), w').
Proof.
  unfold ask.
  apply (C10_answer_survives_save_chat_failure qa uuid (what "doc-1") w_locked
           "doc-1" [hello_doc] hello_result ["Page 1"]);
    vm_compute; reflexivity.
Defined.

(** In that world the chat record is not written: the failure is printed and
    the answer is returned all the same. *)
Example answer_without_record :
  ask (what "doc-1") w_locked =
  (Ok (inr (mkChatResponse "Answer to: What?" ["Page 1"] "doc-1")),
   set_stdout (fun out => out ++ ["Error saving chat: database is locked"])
     (set_faults (fun _ => []) w_locked)) ∧
  db_chats (snd (ask (what "doc-1") w_locked)) = [].
Proof. vm_compute. done. Qed.

(** When it is the insertion into [documents] that fails, the store has
    already been registered: [process_document] returns [False] and the
    document can be asked about. *)
Example failed_insert_still_registered :
  fst (ingest "/tmp/tmp0.pdf" "doc-1"
         (set_faults (fun _ => [None; Some (mkExn "OperationalError" "disk I/O error")])
                     w_pending)) = Ok false ∧
  fst (ask (what "doc-1")
         (snd (ingest "/tmp/tmp0.pdf" "doc-1"
                 (set_faults (fun _ => [None; Some (mkExn "OperationalError" "disk I/O error")])
                             w_pending)))) =
    Ok (inr (mkChatResponse "Answer to: What?" ["Page 1"] "doc-1")).
Proof. vm_compute. done. Qed.

(** The bound parameter is compared with the column as a value: the quoted
    text selects no chat, the identifier selects its own. *)
Example get_chats_rows :
  fst (get_chats quoted (snd (ask (what "doc-1") w_ready))) = Ok (inr []) ∧
  fst (get_chats "doc-1" (snd (ask (what "doc-1") w_ready))) =
    Ok (inr [(SText "What?", SText "Answer to: What?", STime 1)]).
Proof. vm_compute. done. Qed.

(** ** Runs for the further properties *)

Definition documents_list := @get_documents Store.
Definition chats_list := @get_chats Store.

(** The world in which the database accepts the connection and refuses the
    insertion. *)
Definition w_disk : @World Store :=
  set_faults (fun _ => [None; Some (mkExn "OperationalError" "disk I/O error")])
             w_pending.

(** The world after a question about ["doc-1"] was answered. *)
Definition w_asked : @World Store := snd (ask (what "doc-1") w_ready).

(** A chain that retrieves nothing. *)
Definition qa_nothing (store : Store) (k : Z) (q : string) : Result QAResult :=
  Ok (mkQAResult "I do not know." []).

(** The world in which the temporary file cannot be created. *)
Definition w_full : @World Store :=
  set_faults (fun _ => [Some (mkExn "OSError" "No space left on device")]) w0.

Lemma X1_witness :
  db_documents (snd (ingest "/tmp/tmp0.pdf" "doc-1" w_pending)) =
  db_documents w_pending ++ [mkDocumentRow "doc-1" (basename "/tmp/tmp0.pdf") (clock w_pending)].
Proof.
  destruct (X1_process_document_true_registers_and_records load split_pages
              from_documents "/tmp/tmp0.pdf" "doc-1" w_pending
              (snd (ingest "/tmp/tmp0.pdf" "doc-1" w_pending)))
    as (vector_store & _ & _ & Hd & _).
  - vm_compute. reflexivity.
  - exact Hd.
Defined.

Lemma X3_witness :
  fst (ingest "/tmp/tmp0.pdf" "doc-1" w_disk) = Ok false ∧
  vector_stores (snd (ingest "/tmp/tmp0.pdf" "doc-1" w_disk)) !! "doc-1" =
    Some [hello_doc].
Proof.
  split; [by vm_compute|].
  unfold ingest. apply X3_built_index_registered_whatever_the_result.
  vm_compute. reflexivity.
Defined.

Lemma X4_witness :
  fst (ingest "/tmp/tmp0.pdf" "doc-1" w_ready) = Ok false ∧
  db_documents (snd (ingest "/tmp/tmp0.pdf" "doc-1" w_ready)) = db_documents w_ready.
Proof.
  unfold ingest. apply X4_duplicate_identifier_not_recorded.
  vm_compute. apply elem_of_cons. by left.
Defined.

Lemma X5_witness :
  fst (ingest "/tmp/tmp0.pdf" "doc-1" w_pending) = Ok true.
Proof.
  unfold ingest.
  apply (X5_process_document_succeeds load split_pages from_documents
           "/tmp/tmp0.pdf" "doc-1" w_pending [hello_doc]).
  - vm_compute. reflexivity.
  - vm_compute. reflexivity.
  - vm_compute. by intros ?%elem_of_nil.
Defined.

Lemma X7_witness :
  db_chats (snd (save_chat uuid "doc-1" "What?" "Hello." w_ready)) =
  db_chats w_ready ++
  [mkChatRow (uuid (counter w_ready)) "doc-1" "What?" "Hello." (clock w_ready)].
Proof.
  apply X7_save_chat_records.
  - vm_compute. reflexivity.
  - vm_compute. by intros ?%elem_of_nil.
Defined.

Lemma X8_witness :
  snd (ask (what "doc-7") w_pending) = w_pending.
Proof.
  apply (X8_failed_ask_changes_nothing qa uuid (what "doc-7") w_pending
           NOT_FOUND_OR_PROCESSING).
  vm_compute. reflexivity.
Defined.

Lemma X10_witness :
  fst (ask_question qa_nothing uuid (what "doc-1") w_ready) =
  Ok (inr (mkChatResponse (qa_result (mkQAResult "I do not know." [])) [] "doc-1")).
Proof.
  apply (X10_ask_without_passages_answers qa_nothing uuid (what "doc-1") w_ready
           "doc-1" [hello_doc] (mkQAResult "I do not know." []));
    vm_compute; reflexivity.
Defined.

Lemma X12_witness :
  ∃ rows,
    [(SText "What?", SText "Answer to: What?", STime 1)] = map chat_entry rows ∧
    rows ≡ₚ filter (fun r => chat_doc r = "doc-1") (db_chats w_asked) ∧
    StronglySorted (fun a b => chat_created_at a ≤ chat_created_at b) rows.
Proof.
  apply (X12_get_chats_lists_the_documents_chats "doc-1" w_asked _
           (snd (chats_list "doc-1" w_asked))).
  vm_compute. reflexivity.
Defined.

Lemma X14_witness :
  ∃ rows,
    [(SText "doc-1", SText "tmp0.pdf", STime 0)] = map document_entry rows ∧
    rows ≡ₚ db_documents w_ready ∧
    StronglySorted (fun a b => doc_uploaded_at b ≤ doc_uploaded_at a) rows.
Proof.
  apply (X14_get_documents_lists_all_latest_first w_ready _
           (snd (documents_list w_ready))).
  vm_compute. reflexivity.
Defined.

Lemma X15_witness :
  ∃ chats,
    fst (get_chats "doc-1" w_asked) = Ok (inr chats) ∧
    (SText "What?", SText "Answer to: What?", STime (clock w_ready)) ∈ chats.
Proof.
  apply (X15_answered_question_is_listed qa uuid (what "doc-1") w_ready
           (mkChatResponse "Answer to: What?" ["Page 1"] "doc-1") w_asked).
  - vm_compute. reflexivity.
  - vm_compute. by intros ?%elem_of_nil.
  - vm_compute. reflexivity.
Defined.

Lemma X16_witness :
  ∃ w',
    upload (pdf "Hello, world.") true w0 =
      (Ok (inr (mkUploadResponse PROCESSING_MESSAGE (uuid (S (counter w0))))), w') ∧
    files w' = <[tmp (counter w0) ".pdf" := content (pdf "Hello, world.")]> (files w0) ∧
    tasks w' = tasks w0 ++ [(tmp (counter w0) ".pdf", uuid (S (counter w0)))] ∧
    vector_stores w' = vector_stores w0 ∧
    db_documents w' = db_documents w0 ∧ db_chats w' = db_chats w0.
Proof.
  unfold upload. apply X16_upload_saves_and_queues; reflexivity.
Defined.

Lemma X17_witness :
  fst (ask (mkQuestionRequest "What?" (Some (uuid (S (counter w0)))))
         (snd (upload (pdf "Hello, world.") true w0)))
  = Ok (inl NOT_FOUND_OR_PROCESSING).
Proof.
  unfold ask, upload. apply X17_ask_before_processing_is_refused; reflexivity.
Defined.

Lemma X18_witness :
  (∃ w',
      upload (pdf "Hello, world.") false w0 =
        (Ok (inr (mkUploadResponse PROCESSING_MESSAGE "doc-1")), w') ∧
      vector_stores w' !! "doc-1" = Some [hello_doc] ∧
      db_documents w' = [mkDocumentRow "doc-1" "tmp0.pdf" 0]) ∧
  (∃ w',
      upload (pdf "") false w0 =
        (Ok (inr (mkUploadResponse PROCESSING_MESSAGE "doc-1")), w') ∧
      vector_stores w' = ∅ ∧ db_documents w' = [] ∧
      stdout w' = ["Error processing document: Cannot read an empty file"]).
Proof.
  split.
  - destruct (X18_synchronous_upload_always_answers load split_pages from_documents
                uuid tmp (pdf "Hello, world.") w0 eq_refl eq_refl)
      as (w' & Hup & _ & _ & Hok & _).
    destruct (Hok [hello_doc] [hello_doc] [hello_doc]) as [Hvs Hd];
      [vm_compute; reflexivity..|].
    exists w'. split_and!; [exact Hup|exact Hvs|].
    rewrite Hd; [reflexivity|]. vm_compute. by intros ?%elem_of_nil.
  - destruct (X18_synchronous_upload_always_answers load split_pages from_documents
                uuid tmp (pdf "") w0 eq_refl eq_refl)
      as (w' & Hup & _ & _ & _ & Hfail).
    destruct (Hfail (mkExn "EmptyFileError" "Cannot read an empty file"))
      as (Hvs & Hd & Hout); [vm_compute; reflexivity|].
    exists w'. split_and!; [exact Hup|exact Hvs|exact Hd|exact Hout].
Defined.

Lemma X13_witness :
  fst (get_chats "doc-1" w_locked) =
  Ok (inl (mkHTTPException 500 "Error retrieving chats: database is locked")).
Proof.
  rewrite (proj1 (X13_get_chats_reads_only_and_reports_500 "doc-1" w_locked)).
  reflexivity.
Defined.

Lemma X19_witness :
  upload (pdf "Hello, world.") true w_full =
  (Raise (mkExn "OSError" "No space left on device"),
   set_faults (fun _ => []) w_full).
Proof.
  unfold upload. apply X19_upload_io_failure_escapes; reflexivity.
Defined.

Lemma X21_witness :
  vector_stores (snd (run_queue (snd (upload (pdf "Hello, world.") true w0))))
    !! uuid (S (counter w0)) = Some [hello_doc] ∧
  db_documents (snd (run_queue (snd (upload (pdf "Hello, world.") true w0)))) =
    db_documents w0 ++
    [mkDocumentRow (uuid (S (counter w0))) (basename (tmp (counter w0) ".pdf"))
                   (clock w0)] ∧
  fst (ask (mkQuestionRequest "What?" (Some (uuid (S (counter w0)))))
         (snd (run_queue (snd (upload (pdf "Hello, world.") true w0)))))
  ≠ Ok (inl NOT_FOUND_OR_PROCESSING).
Proof.
  unfold ask, run_queue, upload.
  apply (X21_uploaded_document_becomes_askable load split_pages from_documents qa
           uuid tmp (pdf "Hello, world.") w0 [hello_doc] [hello_doc]).
  - reflexivity.
  - reflexivity.
  - reflexivity.
  - vm_compute. by intros ?%elem_of_nil.
  - vm_compute. reflexivity.
  - vm_compute. reflexivity.
  - vm_compute. reflexivity.
Defined.

Lemma X22_witness :
  sql_text (mkSqlCall INSERT_CHAT
              [SText (uuid (counter w_ready)); SText "doc-1";
               SText "What'); DROP TABLE chats; --"; SText "Hello.";
               STime (clock w_ready)]) = INSERT_CHAT ∧
  sql_params (mkSqlCall INSERT_CHAT
              [SText (uuid (counter w_ready)); SText "doc-1";
               SText "What'); DROP TABLE chats; --"; SText "Hello.";
               STime (clock w_ready)]) =
    [SText (uuid (counter w_ready)); SText "doc-1";
     SText "What'); DROP TABLE chats; --"; SText "Hello."; STime (clock w_ready)].
Proof.
  apply (X22_save_chat_binds_its_values uuid "doc-1"
           "What'); DROP TABLE chats; --" "Hello." w_ready).
  vm_compute. apply elem_of_cons. by left.
Defined.

Lemma X23_witness :
  sql_text (mkSqlCall INSERT_DOCUMENT
              [SText "doc-1"; SText "tmp0.pdf"; STime 0]) = INSERT_DOCUMENT ∧
  sql_params (mkSqlCall INSERT_DOCUMENT
              [SText "doc-1"; SText "tmp0.pdf"; STime 0]) =
    [SText "doc-1"; SText (basename "/tmp/tmp0.pdf"); STime (clock w_pending)].
Proof.
  apply (X23_process_document_binds_its_values load split_pages from_documents
           "/tmp/tmp0.pdf" "doc-1" w_pending).
  vm_compute. apply elem_of_cons. by left.
Defined.

End Scenarios.
